(** * tunnel-go: value resolution, port allocation, tunnel orchestration

    A shallow embedding of the Go packages [config], [aws] and [tunnel]
    and the properties of their resolution, allocation, batch and
    cleanup paths.

    Conventions of the embedding.
    - A Go [string] is a byte sequence: Rocq's [string].
    - A Go [int] is a 64-bit two's-complement integer: a [Z] between
      [min_int] and [max_int]; [port++] is [int_succ], which wraps.
    - A Go [(T, error)] result is a [result T]; a lone [error] result is
      an [option error], [None] standing for [nil].
    - Everything outside the process (the SSM and EC2 services, the
      local network stack, the process table, the random source) is an
      oracle: a field of [aws.Client] or of [OS].  The oracles are a
      snapshot: they answer the same way throughout one call.
    - Calls that leave the process are appended to the [calls] log of
      the [World], so that "how many remote calls" is a statement about
      that log.
    - [log.Printf] output and the [verbose] flag, which only guards log
      output, are not part of the model. *)

From Stdlib Require Import ZArith Lia.
From stdpp Require Import base tactics option list strings gmap pretty.

(** ** Go's error values *)

(** [errorString] is an error built without an operand to wrap
    ([fmt.Errorf] with no [%w], or an error of an outside library);
    [wrapError msg err] is [fmt.Errorf(msg + "%w", err)]: every format
    string of the programme that wraps has its [%w] last. *)
Inductive error : Type :=
| errorString (msg : string)
| wrapError (msg : string) (err : error).

(** [err.Error()] *)
Fixpoint Error (e : error) : string :=
  match e with
  | errorString msg => msg
  | wrapError msg e' => msg +:+ Error e'
  end.

Inductive result (A : Type) : Type :=
| ok (a : A)
| err (e : error).
Arguments ok {A} a.
Arguments err {A} e.

(** ** Go's [int] *)

Definition max_int : Z := 2 ^ 63 - 1.
Definition min_int : Z := - 2 ^ 63.

(** [n++] on an [int] *)
Definition int_succ (n : Z) : Z :=
  if (n =? max_int)%Z then min_int else (n + 1)%Z.

(** ** Package [strings] *)

Module strings.

(** The scan behind [ReplaceAll]: [skip] counts the bytes of a match
    that are still to be dropped. *)
Fixpoint replace_from (old new : string) (skip : nat) (s : string) : string :=
  match s with
  | EmptyString => EmptyString
  | String c s' =>
      match skip with
      | S k => replace_from old new k s'
      | O =>
          if String.prefix old s
          then new +:+ replace_from old new (String.length old - 1) s'
          else String c (replace_from old new 0 s')
      end
  end.

(** [strings.ReplaceAll(s, old, new)] for a non-empty [old]: the
    non-overlapping occurrences of [old], found from left to right, are
    replaced by [new].  (For an empty [old] Go inserts [new] around
    every rune; no call of the programme has an empty [old].) *)
Definition ReplaceAll (s old new : string) : string :=
  replace_from old new 0 s.

(** The scan behind [Split]; the head of the result is the segment
    being read. *)
Fixpoint split_from (sep : string) (skip : nat) (s : string) : list string :=
  match s with
  | EmptyString => [EmptyString]
  | String c s' =>
      match skip with
      | S k => split_from sep k s'
      | O =>
          if String.prefix sep s
          then EmptyString :: split_from sep (String.length sep - 1) s'
          else match split_from sep 0 s' with
               | seg :: rest => String c seg :: rest
               | [] => [String c EmptyString]
               end
      end
  end.

(** [strings.Split(s, sep)] for a non-empty [sep]. *)
Definition Split (s sep : string) : list string :=
  split_from sep 0 s.

(** The scan behind [Replace] with a count: [n] replacements are still
    allowed. *)
Fixpoint replace_first (old new : string) (skip n : nat) (s : string) : string :=
  match s with
  | EmptyString => EmptyString
  | String c s' =>
      match skip with
      | S k => replace_first old new k n s'
      | O =>
          match n with
          | O => s
          | S n' =>
              if String.prefix old s
              then new +:+ replace_first old new (String.length old - 1) n' s'
              else String c (replace_first old new 0 n s')
          end
      end
  end.

(** [strings.Replace(s, old, new, n)] for a non-empty [old]: the first
    [n] occurrences are replaced, all of them when [n] is negative. *)
Definition Replace (s old new : string) (n : Z) : string :=
  if (n <? 0)%Z then ReplaceAll s old new
  else replace_first old new 0 (Z.to_nat n) s.

End strings.

(** [Replaced old new s t]: [t] is [s] read from left to right, with
    each occurrence of [old] met on the way replaced by [new] and the
    reading resumed after it. *)
Inductive Replaced (old new : string) : string -> string -> Prop :=
| Replaced_end : Replaced old new "" ""
| Replaced_hit s t :
    Replaced old new s t -> Replaced old new (old +:+ s) (new +:+ t)
| Replaced_miss c s t :
    String.prefix old (String c s) = false ->
    Replaced old new s t -> Replaced old new (String c s) (String c t).

(** [is_last_segment key n]: [key] is the last of the parts of [n]
    that slashes separate: it holds no slash, and [n] is [key] alone
    or ends in a slash followed by [key]. *)
Definition is_last_segment (key n : string) : Prop :=
  String.index 0 "/" key = None
  /\ (n = key \/ exists a, n = a +:+ "/" +:+ key).

(** The token that stands for the environment name in configured
    strings: the literal every [ReplaceAll] of the programme looks for. *)
Definition PLACEHOLDER : string := "${PLACEHOLDER}".

(** [fmt.Sprintf("%d", n)] *)
Definition fmt_d (n : Z) : string := pretty n.

(** ** Types of the outside libraries *)

(** [ec2/types]: instance state names, tags, instances, filters. *)
Module types.

Inductive InstanceStateName : Type :=
| InstanceStateNamePending
| InstanceStateNameRunning
| InstanceStateNameShuttingDown
| InstanceStateNameTerminated
| InstanceStateNameStopping
| InstanceStateNameStopped.

Definition InstanceStateName_eqb (a b : InstanceStateName) : bool :=
  match a, b with
  | InstanceStateNamePending, InstanceStateNamePending
  | InstanceStateNameRunning, InstanceStateNameRunning
  | InstanceStateNameShuttingDown, InstanceStateNameShuttingDown
  | InstanceStateNameTerminated, InstanceStateNameTerminated
  | InstanceStateNameStopping, InstanceStateNameStopping
  | InstanceStateNameStopped, InstanceStateNameStopped => true
  | _, _ => false
  end.

(** [InstanceId] and the keys and values of [Tags] are the strings
    pointed to (the service always sets them); [State] is the pointer
    to the instance state, [None] when nil, with the [Name] of the
    pointed state. *)
Record Instance : Type := {
  InstanceId : string;
  State : option InstanceStateName;
  Tags : list (string * string)
}.

Record Filter : Type := {
  Name : string;
  Values : list string
}.

(** A reservation is read only for its [Instances]. *)
Definition Reservation : Type := list Instance.

End types.

(** [ssm/types.Parameter] (the name is reserved in Rocq): both fields
    are pointers. *)
Module ssmtypes.

Record Param : Type := {
  Name : option string;
  Value : option string
}.

End ssmtypes.

(** [os/exec]: a started command, with the process it runs as. *)
Module exec.

Definition Pid : Type := Z.

(** [Args] holds the command name and then its arguments, as
    [exec.Command] builds it. *)
Record Cmd : Type := {
  Args : list string;
  Process : Pid
}.

End exec.

(** ** The world and the monad of the programme *)

(** Calls that leave the process. *)
Inductive Call : Type :=
| SSMGetParameter (name : string) (withDecryption : bool)
| SSMGetParameters (names : list string)
| EC2DescribeInstances (filters : list types.Filter)
| NetListen (port : Z)
| ExecStart (args : list string)
| ProcessKill (pid : exec.Pid).

(** What one run reads and writes: the two mutable fields of the
    tunnel manager and the log of outside calls, oldest first.
    [tunnels] is the manager's [sync.Map]: distinct keys, listed in the
    order [Range] visits them; Go leaves that order open, and the
    properties below are stated for every list. *)
Record World : Type := {
  tunnels : list (string * exec.Cmd);
  jumphost : option types.Instance;
  calls : list Call
}.

(** A computation returns [Some a] and the world it leaves, or does
    not return ([None]: a panic or an endless loop) and leaves the
    world reached until then. *)
Definition M (A : Type) : Type := World -> option A * World.

Definition ret {A} (a : A) : M A := fun w => (Some a, w).

Definition bind {A B} (m : M A) (k : A -> M B) : M B :=
  fun w =>
    match m w with
    | (Some a, w') => k a w'
    | (None, w') => (None, w')
    end.

Definition stuck {A} : M A := fun w => (None, w).

Notation "'let*' x ':=' m 'in' k" := (bind m (fun x => k))
  (at level 10, x name, m at level 100, k at level 200).

(** The world after the outside calls [cs] were made in it. *)
Definition log (cs : list Call) (w : World) : World :=
  {| tunnels := tunnels w; jumphost := jumphost w; calls := calls w ++ cs |}.

(** Record an outside call and hand back the oracle's answer. *)
Definition call {A} (c : Call) (answer : A) : M A :=
  fun w => (Some answer, log [c] w).

Definition get_jumphost : M (option types.Instance) :=
  fun w => (Some (jumphost w), w).

Definition get_tunnels : M (list (string * exec.Cmd)) :=
  fun w => (Some (tunnels w), w).

Definition set_jumphost (i : types.Instance) : M unit :=
  fun w =>
    (Some tt, {| tunnels := tunnels w; jumphost := Some i; calls := calls w |}).

(** [sync.Map.Store]: the value under an existing key is replaced, a
    new key is added. *)
Fixpoint store (k : string) (v : exec.Cmd) (l : list (string * exec.Cmd))
  : list (string * exec.Cmd) :=
  match l with
  | [] => [(k, v)]
  | (k', v') :: rest =>
      if String.eqb k k' then (k, v) :: rest else (k', v') :: store k v rest
  end.

(** [sync.Map.Load] *)
Fixpoint load (k : string) (l : list (string * exec.Cmd)) : option exec.Cmd :=
  match l with
  | [] => None
  | (k', v') :: rest => if String.eqb k k' then Some v' else load k rest
  end.

(** The world after [v] was stored under [k]. *)
Definition register (k : string) (v : exec.Cmd) (w : World) : World :=
  {| tunnels := store k v (tunnels w); jumphost := jumphost w; calls := calls w |}.

Definition Store (k : string) (v : exec.Cmd) : M unit :=
  fun w => (Some tt, register k v w).

(** [sync.Map.Range(f)]: [f] is called on the entries in turn until it
    returns false.  [f] is a closure; [acc] is the variable it
    captures and assigns. *)
Fixpoint Range {A} (f : string -> exec.Cmd -> A -> M (bool * A))
    (entries : list (string * exec.Cmd)) (acc : A) : M A :=
  match entries with
  | [] => ret acc
  | (k, v) :: rest =>
      let* r := f k v acc in
      if fst r then Range f rest (snd r) else ret (snd r)
  end.

(** ** Package [config] *)

Module config.

Record ConfigValue : Type := {
  Value : string;
  SSMParam : string
}.

Record PortRange : Type := {
  Start : Z;
  End_ : Z
}.

Record ServiceConfig : Type := {
  Host : ConfigValue;
  RemotePort : ConfigValue;
  LocalPortRange : PortRange;
  ServiceDetails : list string
}.

(** Of [Config], the fields the tunnel manager reads. *)
Record Config : Type := {
  JumphostFilter : string;
  Services : gmap string ServiceConfig
}.

(** The interface [SSMClient]. *)
Class SSMClient (C : Type) : Type :=
  GetParameter : C -> string -> M (result string).

(** The method [GetValue] of [ConfigValue]; its second parameter, named
    [placeholder] in the source, receives the environment name. *)
Definition GetValue `{SSMClient C} (cv : ConfigValue) (ssmClient : C)
    (placeholder : string) : M (result string) :=
  if negb (String.eqb (SSMParam cv) "") && negb (String.eqb (Value cv) "")
  then ret (err (errorString "cannot specify both value and SSM parameter"))
  else if negb (String.eqb (SSMParam cv) "")
  then
    let paramPath := strings.ReplaceAll (SSMParam cv) PLACEHOLDER placeholder in
    GetParameter ssmClient paramPath
  else if negb (String.eqb (Value cv) "")
  then ret (ok (Value cv))
  else ret (err (errorString "no value or SSM parameter specified")).

Definition GetJumphostFilter (c : Config) (env : string) : string :=
  strings.ReplaceAll (JumphostFilter c) PLACEHOLDER env.

Definition GetServiceConfig (c : Config) (serviceName : string)
  : result ServiceConfig :=
  match Services c !! serviceName with
  | Some service => ok service
  | None => err (errorString ("unknown service: " +:+ serviceName))
  end.

End config.

(** The mock client of the [config] tests: a table of parameters, or
    an error to answer every request with. *)
Module config_test.

Record mockSSMClient : Type := {
  params : gmap string string;
  mock_err : option error
}.

#[global] Instance mock_SSMClient : config.SSMClient mockSSMClient :=
  fun m name =>
    match mock_err m with
    | Some e => ret (err e)
    | None =>
        match params m !! name with
        | Some val => ret (ok val)
        | None => ret (err (errorString ("parameter not found: " +:+ name)))
        end
    end.

End config_test.

(** ** The operating system *)

(** What the programme asks of its host: [rand.Intn] (seeded from the
    clock just before), [net.Listen] on [":port"] (true when a
    listener could be bound; the programme closes it at once),
    [Start] of an [exec.Cmd] on an argument vector, and [Kill] of an
    [os.Process].  Go's [rand.Intn n] answers below [n]; where
    an oracle answers otherwise the indexing panics and the model does
    not return. *)
Record OS : Type := {
  rand_Intn : nat -> nat;
  net_Listen : Z -> bool;
  exec_Start : list string -> result exec.Pid;
  Process_Kill : exec.Pid -> option error
}.

(** The Go idiom [x, err := m; if err != nil { return fmt.Errorf(msg + "%w", err) }]
    in a function that returns a lone [error] ... *)
Definition orFail {A} (m : M (result A)) (msg : string)
    (k : A -> M (option error)) : M (option error) :=
  let* r := m in
  match r with
  | ok a => k a
  | err e => ret (Some (wrapError msg e))
  end.

(** ... and in a function that returns a value and an [error]. *)
Definition orErr {A B} (m : M (result A)) (msg : string)
    (k : A -> M (result B)) : M (result B) :=
  let* r := m in
  match r with
  | ok a => k a
  | err e => ret (err (wrapError msg e))
  end.

Notation "'let?' x ':=' m 'failing' msg 'in' k" := (orFail m msg (fun x => k))
  (at level 10, x name, m at level 100, msg at level 100, k at level 200).

Notation "'let?' x ':=' m 'erring' msg 'in' k" := (orErr m msg (fun x => k))
  (at level 10, x name, m at level 100, msg at level 100, k at level 200).

(** ** Package [aws] *)

Module aws.

(** The client wraps the two SDK clients; each SDK operation the
    programme uses is an oracle.  [SSM_GetParameter] answers with the
    [Value] pointer of the parameter found. *)
Record Client : Type := {
  SSM_GetParameter : string -> bool -> result (option string);
  SSM_GetParameters : list string -> result (list ssmtypes.Param);
  EC2_DescribeInstances : list types.Filter -> result (list types.Reservation)
}.

Definition GetParameterValue (c : Client) (name : string) (withDecryption : bool)
  : M (result string) :=
  let* r := call (SSMGetParameter name withDecryption)
                 (SSM_GetParameter c name withDecryption) in
  match r with
  | err e => ret (err (wrapError ("failed to get parameter " +:+ name +:+ ": ") e))
  | ok None => ret (err (errorString ("parameter " +:+ name +:+ " has no value")))
  | ok (Some v) => ret (ok v)
  end.

Definition GetParameter (c : Client) (name : string) : M (result string) :=
  GetParameterValue c name true.

#[global] Instance Client_SSMClient : config.SSMClient Client := GetParameter.

Definition batchSize : nat := 10.

(** The batch loop of [GetParametersByPath], from index [i] on;
    [length paths] rounds are enough for it to end. *)
Fixpoint GetParametersByPath_loop (c : Client) (paths : list string)
    (fuel i : nat) (parameters : list ssmtypes.Param)
  : M (result (list ssmtypes.Param)) :=
  if i <? length paths then
    match fuel with
    | O => stuck
    | S fuel' =>
        let end_ := if length paths <? i + batchSize
                    then length paths else i + batchSize in
        let batch := take (end_ - i) (drop i paths) in
        let* output := call (SSMGetParameters batch) (SSM_GetParameters c batch) in
        match output with
        | err e => ret (err (wrapError "failed to get parameters: " e))
        | ok found =>
            GetParametersByPath_loop c paths fuel' (i + batchSize) (parameters ++ found)
        end
    end
  else ret (ok parameters).

Definition GetParametersByPath (c : Client) (paths : list string)
  : M (result (list ssmtypes.Param)) :=
  let* r := GetParametersByPath_loop c paths (length paths) 0 [] in
  match r with
  | err e => ret (err e)
  | ok parameters =>
      if length parameters =? 0
      then ret (err (errorString "no parameters found"))
      else ret (ok parameters)
  end.

Definition is_running (instance : types.Instance) : bool :=
  match types.State instance with
  | Some name => types.InstanceStateName_eqb name types.InstanceStateNameRunning
  | None => false
  end.

(** The instances collected from the reservations, in order. *)
Definition running_instances (reservations : list types.Reservation)
  : list types.Instance :=
  concat (map (filter (fun i => is_running i = true)) reservations).

Definition jumphost_filters (filter : string) : list types.Filter :=
  [ {| types.Name := "tag:Name"; types.Values := [filter] |};
    {| types.Name := "instance-state-name"; types.Values := ["running"] |} ].

Definition GetJumphost (os : OS) (c : Client) (env filter : string)
  : M (result types.Instance) :=
  let filter := strings.ReplaceAll filter PLACEHOLDER env in
  let filters := jumphost_filters filter in
  let* output := call (EC2DescribeInstances filters) (EC2_DescribeInstances c filters) in
  match output with
  | err e => ret (err (wrapError "failed to describe instances: " e))
  | ok reservations =>
      let instances := running_instances reservations in
      if length instances =? 0
      then ret (err (errorString
                       ("no running instances found matching filter: " +:+ filter)))
      else match instances !! rand_Intn os (length instances) with
           | Some instance => ret (ok instance)
           | None => stuck
           end
  end.

(** The helper [getInstanceName] of this package: the value of the
    first tag whose key is [Name], the empty string without one. *)
Fixpoint getInstanceName_tags (tags : list (string * string)) : string :=
  match tags with
  | [] => ""
  | (key, value) :: rest =>
      if String.eqb key "Name" then value else getInstanceName_tags rest
  end.

Definition getInstanceName (instance : types.Instance) : string :=
  getInstanceName_tags (types.Tags instance).

End aws.

(** ** Package [tunnel] *)

Module tunnel.

(** Of the manager, the fields that are set once by [NewManager]; the
    two fields it mutates, [tunnels] and [jumphost], live in the
    [World]. *)
Record Manager : Type := {
  client : aws.Client;
  config : config.Config;
  env : string
}.

(** The double quote, for the JSON of the session parameters. *)
Definition dq : string := String (Ascii.ascii_of_nat 34) EmptyString.

(** The [--parameters] argument:
    [{ "host":[ "%s" ],"portNumber":[ "%s" ],"localPortNumber":[ "%d" ] }]
    without the blanks. *)
Definition session_parameters (host remotePort : string) (localPort : Z) : string :=
  "{" +:+ dq +:+ "host" +:+ dq +:+ ":[" +:+ dq +:+ host +:+ dq +:+ "],"
  +:+ dq +:+ "portNumber" +:+ dq +:+ ":[" +:+ dq +:+ remotePort +:+ dq +:+ "],"
  +:+ dq +:+ "localPortNumber" +:+ dq +:+ ":[" +:+ dq +:+ fmt_d localPort +:+ dq
  +:+ "]}".

(** The helper [getInstanceName] of this package: as the one of
    [aws], but [unnamed] without a [Name] tag. *)
Fixpoint getInstanceName_tags (tags : list (string * string)) : string :=
  match tags with
  | [] => "unnamed"
  | (key, value) :: rest =>
      if String.eqb key "Name" then value else getInstanceName_tags rest
  end.

Definition getInstanceName (instance : types.Instance) : string :=
  getInstanceName_tags (types.Tags instance).

Section WithOS.

Context (os : OS).

Definition GetJumphost (m : Manager) : M (result types.Instance) :=
  let filter := config.GetJumphostFilter (config m) (env m) in
  aws.GetJumphost os (client m) (env m) filter.

Definition isPortAvailable (port : Z) : M bool :=
  call (NetListen port) (net_Listen os port).

(** The loop of [findAvailablePort] from [port] on: [Some p] when it
    returns [p] from inside, [None] when it falls through.  [fuel]
    bounds the rounds; [end_ - start + 1] rounds are enough unless
    [port++] wraps. *)
Fixpoint findAvailablePort_loop (fuel : nat) (port end_ : Z) : M (option Z) :=
  if (port <=? end_)%Z then
    match fuel with
    | O => stuck
    | S fuel' =>
        let* free := isPortAvailable port in
        if free then ret (Some port)
        else findAvailablePort_loop fuel' (int_succ port) end_
    end
  else ret None.

Definition findAvailablePort (start end_ : Z) : M (result Z) :=
  let* found := findAvailablePort_loop (Z.to_nat (end_ - start + 1)) start end_ in
  match found with
  | Some port => ret (ok port)
  | None =>
      ret (err (errorString ("no available ports in range "
                             +:+ fmt_d start +:+ "-" +:+ fmt_d end_)))
  end.

Definition CreateTunnel (m : Manager) (serviceName : string)
    (serviceConfig : config.ServiceConfig) : M (option error) :=
  let? host := config.GetValue (config.Host serviceConfig) (client m) (env m)
    failing ("failed to get host for " +:+ serviceName +:+ ": ") in
  let? remotePort := config.GetValue (config.RemotePort serviceConfig) (client m) (env m)
    failing ("failed to get remote port for " +:+ serviceName +:+ ": ") in
  let launch (jh : types.Instance) : M (option error) :=
    let? localPort :=
        findAvailablePort (config.Start (config.LocalPortRange serviceConfig))
                          (config.End_ (config.LocalPortRange serviceConfig))
      failing ("failed to find available port for " +:+ serviceName +:+ ": ") in
    let args := [ "ssm"; "start-session";
                  "--target"; types.InstanceId jh;
                  "--document-name"; "AWS-StartPortForwardingSessionToRemoteHost";
                  "--parameters"; session_parameters host remotePort localPort ] in
    let argv := "aws" :: args in
    let? pid := call (ExecStart argv) (exec_Start os argv)
      failing "failed to start AWS CLI command: " in
    let cmd := {| exec.Args := argv; exec.Process := pid |} in
    let* _ := Store serviceName cmd in
    ret None in
  let* cached := get_jumphost in
  match cached with
  | None =>
      let? instance := GetJumphost m failing "failed to find jumphost instance: " in
      let* _ := set_jumphost instance in
      launch instance
  | Some instance => launch instance
  end.

(** The loop of [CreateTunnels] over the services still to attempt. *)
Fixpoint CreateTunnels_loop (m : Manager) (services : list string)
    (lastError : option error) : M (option error) :=
  match services with
  | [] => ret lastError
  | serviceName :: rest =>
      match config.GetServiceConfig (config m) serviceName with
      | err e => CreateTunnels_loop m rest (Some e)
      | ok serviceConfig =>
          let* failure := CreateTunnel m serviceName serviceConfig in
          match failure with
          | Some e => CreateTunnels_loop m rest (Some e)
          | None => CreateTunnels_loop m rest lastError
          end
      end
  end.

Definition CreateTunnels (m : Manager) (services : list string) : M (option error) :=
  let? instance := GetJumphost m failing "failed to find jumphost instance: " in
  let* _ := set_jumphost instance in
  let* lastError := CreateTunnels_loop m services None in
  match lastError with
  | Some e => ret (Some (wrapError "one or more tunnels failed to create: " e))
  | None => ret None
  end.

(** The key a fetched parameter is filed under: what follows the last
    slash of its name. *)
Definition last_segment (name : string) : string :=
  let parts := strings.Split name "/" in
  if 0 <? length parts then default name (last parts) else name.

(** The loop that adds the fetched parameters to the details. *)
Definition add_parameters (details : gmap string string)
    (parameters : list ssmtypes.Param) : gmap string string :=
  foldl (fun details param =>
           match ssmtypes.Name param, ssmtypes.Value param with
           | Some name, Some value => <[last_segment name := value]> details
           | _, _ => details
           end)
        details parameters.

Definition GetServiceDetails (m : Manager) (serviceName : string)
    (serviceConfig : config.ServiceConfig) : M (result (gmap string string)) :=
  let details : gmap string string := ∅ in
  let? host := config.GetValue (config.Host serviceConfig) (client m) (env m)
    erring "failed to get host: " in
  let details := <["host" := host]> details in
  let? remotePort := config.GetValue (config.RemotePort serviceConfig) (client m) (env m)
    erring "failed to get remote port: " in
  let details := <["remote_port" := remotePort]> details in
  let finish (details : gmap string string) : M (result (gmap string string)) :=
    ret (ok (<["local_port_range" :=
                 fmt_d (config.Start (config.LocalPortRange serviceConfig))
                 +:+ "-" +:+
                 fmt_d (config.End_ (config.LocalPortRange serviceConfig))]> details)) in
  if 0 <? length (config.ServiceDetails serviceConfig) then
    let paramPaths :=
      map (fun path => strings.ReplaceAll path PLACEHOLDER (env m))
          (config.ServiceDetails serviceConfig) in
    let* parameters := aws.GetParametersByPath (client m) paramPaths in
    match parameters with
    | err e => ret (ok details)
    | ok parameters => finish (add_parameters details parameters)
    end
  else finish details.

(** The closure [CleanupTunnels] hands to [Range]; [lastErr] is the
    variable it captures. *)
Definition kill_tunnel (key : string) (cmd : exec.Cmd) (lastErr : option error)
  : M (bool * option error) :=
  let* failure := call (ProcessKill (exec.Process cmd))
                       (Process_Kill os (exec.Process cmd)) in
  match failure with
  | Some e => ret (false, Some (wrapError "failed to kill tunnel process: " e))
  | None => ret (true, lastErr)
  end.

Definition CleanupTunnels (m : Manager) : M (option error) :=
  let* entries := get_tunnels in
  Range kill_tunnel entries None.

End WithOS.

End tunnel.

(** ** Package [main]: the search for the configuration file *)

Module main.

(** What [findConfigFile] asks of the file system and the environment:
    [os.Stat] (its error, [None] when the file is there) and
    [os.Getenv]. *)
Record Files : Type := {
  os_Stat : string -> option error;
  os_Getenv : string -> string
}.

Definition locations : list string :=
  [ "config.yaml"; "tunnel-go.yaml";
    "~/.tunnel-go/config.yaml"; "~/.config/tunnel-go.yaml" ].

(** The loop of [findConfigFile] over the locations still to check:
    the first one found, if any. *)
Fixpoint findConfigFile_loop (fs : Files) (locs : list string) : option string :=
  match locs with
  | [] => None
  | loc :: rest =>
      let expanded := strings.Replace loc "~" (os_Getenv fs "HOME") 1 in
      match os_Stat fs expanded with
      | None => Some expanded
      | Some _ => findConfigFile_loop fs rest
      end
  end.

Definition findConfigFile (fs : Files) (configPath : string) : result string :=
  if negb (String.eqb configPath "") then
    match os_Stat fs configPath with
    | None => ok configPath
    | Some _ => err (errorString ("config file not found at " +:+ configPath))
    end
  else
    match findConfigFile_loop fs locations with
    | Some found => ok found
    | None => err (errorString "no config file found in standard locations")
    end.

End main.

(** ** Kinds of outside calls *)

(** The calls the tunnel of one service makes once the jumphost is
    known: parameter reads, port probes, the launch. *)
Definition per_service (c : Call) : bool :=
  match c with
  | SSMGetParameter _ _ | NetListen _ | ExecStart _ => true
  | _ => false
  end.

Definition is_describe (c : Call) : bool :=
  match c with EC2DescribeInstances _ => true | _ => false end.

Definition is_kill (c : Call) : bool :=
  match c with ProcessKill _ => true | _ => false end.

(** Requests to the parameter store. *)
Definition is_ssm (c : Call) : bool :=
  match c with
  | SSMGetParameter _ _ | SSMGetParameters _ => true
  | _ => false
  end.

(** The kill request for the process of a registry entry. *)
Definition kill_of (entry : string * exec.Cmd) : Call :=
  ProcessKill (exec.Process entry.2).

(** The processes a log asked to kill, in order. *)
Definition killed (cs : list Call) : list exec.Pid :=
  omap (fun c => match c with ProcessKill pid => Some pid | _ => None end) cs.

(** ** Fixtures

    A small concrete world on which the properties below are run: a
    parameter store with four parameters under [/prod], one running and
    one stopped instance behind the filter, local ports 5000 and 5001
    taken. *)

Module fixture.

Definition initial : World := {| tunnels := []; jumphost := None; calls := [] |}.

Definition bastion : types.Instance :=
  {| types.InstanceId := "i-0abc";
     types.State := Some types.InstanceStateNameRunning;
     types.Tags := [("Name", "prod-ecs-autoscaled")] |}.

Definition stopped : types.Instance :=
  {| types.InstanceId := "i-0def";
     types.State := Some types.InstanceStateNameStopped;
     types.Tags := [("Name", "prod-ecs-autoscaled")] |}.

Definition store_value (name : string) : option string :=
  if String.eqb name "/prod/db/host" then Some "db.internal"
  else if String.eqb name "/prod/db/port" then Some "5432"
  else if String.eqb name "/prod/db/user" then Some "admin"
  else if String.eqb name "/prod/replica/host" then Some "replica.internal"
  else None.

Definition found (names : list string) : list ssmtypes.Param :=
  omap (fun name =>
          match store_value name with
          | Some v => Some {| ssmtypes.Name := Some name; ssmtypes.Value := Some v |}
          | None => None
          end) names.

Definition store : aws.Client :=
  {| aws.SSM_GetParameter name _ :=
       match store_value name with
       | Some v => ok (Some v)
       | None => err (errorString "ParameterNotFound")
       end;
     aws.SSM_GetParameters names := ok (found names);
     aws.EC2_DescribeInstances _ := ok [[stopped; bastion]] |}.

(** The same store, with its batch operation out of order. *)
Definition store_batch_down : aws.Client :=
  {| aws.SSM_GetParameter := aws.SSM_GetParameter store;
     aws.SSM_GetParameters _ := err (errorString "ThrottlingException");
     aws.EC2_DescribeInstances := aws.EC2_DescribeInstances store |}.

(** Twelve names, of which the store knows the first two and the last
    two: more than one batch of ten. *)
Definition twelve_paths : list string :=
  [ "/prod/db/host"; "/prod/db/port";
    "/prod/x/1"; "/prod/x/2"; "/prod/x/3"; "/prod/x/4";
    "/prod/x/5"; "/prod/x/6"; "/prod/x/7"; "/prod/x/8";
    "/prod/db/user"; "/prod/replica/host" ].

(** The same store, refusing any batch that names the user parameter. *)
Definition store_user_denied : aws.Client :=
  {| aws.SSM_GetParameter := aws.SSM_GetParameter store;
     aws.SSM_GetParameters names :=
       if bool_decide ("/prod/db/user" ∈ names)
       then err (errorString "AccessDeniedException")
       else ok (found names);
     aws.EC2_DescribeInstances := aws.EC2_DescribeInstances store |}.

(** The same store, with no running instance behind the filter. *)
Definition store_no_jumphost : aws.Client :=
  {| aws.SSM_GetParameter := aws.SSM_GetParameter store;
     aws.SSM_GetParameters := aws.SSM_GetParameters store;
     aws.EC2_DescribeInstances _ := ok [[stopped]] |}.

(** Ports 5000 and 5001 are taken; process 2 cannot be killed. *)
Definition host : OS :=
  {| rand_Intn _ := 0%nat;
     net_Listen port := negb ((port =? 5000)%Z || (port =? 5001)%Z);
     exec_Start _ := ok 41%Z;
     Process_Kill pid :=
       if (pid =? 2)%Z then Some (errorString "operation not permitted")
       else None |}.

Definition database : config.ServiceConfig :=
  {| config.Host := {| config.Value := ""; config.SSMParam := "/${PLACEHOLDER}/db/host" |};
     config.RemotePort := {| config.Value := "5432"; config.SSMParam := "" |};
     config.LocalPortRange := {| config.Start := 5000; config.End_ := 5009 |};
     config.ServiceDetails :=
       [ "/${PLACEHOLDER}/db/user"; "/${PLACEHOLDER}/replica/host" ] |}.

(** A service whose host parameter is not in the store. *)
Definition cache : config.ServiceConfig :=
  {| config.Host := {| config.Value := ""; config.SSMParam := "/${PLACEHOLDER}/cache/host" |};
     config.RemotePort := {| config.Value := "6379"; config.SSMParam := "" |};
     config.LocalPortRange := {| config.Start := 6000; config.End_ := 6009 |};
     config.ServiceDetails := [] |}.

Definition cfg : config.Config :=
  {| config.JumphostFilter := "${PLACEHOLDER}-ecs-autoscaled";
     config.Services := <["database" := database]> (<["cache" := cache]> ∅) |}.

Definition manager (c : aws.Client) : tunnel.Manager :=
  {| tunnel.client := c; tunnel.config := cfg; tunnel.env := "prod" |}.

Definition session (pid : Z) : exec.Cmd :=
  {| exec.Args := ["aws"; "ssm"; "start-session"]; exec.Process := pid |}.

(** A registry of three sessions, visited in this order. *)
Definition three_sessions : World :=
  {| tunnels := [("a", session 1); ("b", session 2); ("c", session 3)];
     jumphost := Some bastion;
     calls := [] |}.

(** A service with literal host and port and no detail paths. *)
Definition metrics : config.ServiceConfig :=
  {| config.Host := {| config.Value := "10.0.0.5"; config.SSMParam := "" |};
     config.RemotePort := {| config.Value := "9090"; config.SSMParam := "" |};
     config.LocalPortRange := {| config.Start := 7000; config.End_ := 7001 |};
     config.ServiceDetails := [] |}.

(** A registry of two sessions whose processes can be killed. *)
Definition two_sessions : World :=
  {| tunnels := [("a", session 1); ("c", session 3)];
     jumphost := Some bastion;
     calls := [] |}.

(** A home directory holding [.config/tunnel-go.yaml] and nothing
    else of interest. *)
Definition files : main.Files :=
  {| main.os_Stat path :=
       if String.eqb path "/home/dev/.config/tunnel-go.yaml" then None
       else Some (errorString "no such file or directory");
     main.os_Getenv name := if String.eqb name "HOME" then "/home/dev" else "" |}.

(** A world in which the [database] service already has a session. *)
Definition database_running : World :=
  {| tunnels := [("cache", session 6); ("database", session 7)];
     jumphost := Some bastion;
     calls := [] |}.

End fixture.

(** * Properties *)

(** ** The log of outside calls *)

Lemma log_nil (w : World) : log [] w = w.
Proof. destruct w; unfold log; simpl. by rewrite app_nil_r. Qed.

Lemma log_log (a b : list Call) (w : World) : log b (log a w) = log (a ++ b) w.
Proof. unfold log; simpl. by rewrite app_assoc. Qed.

Lemma calls_log (cs : list Call) (w : World) : calls (log cs w) = calls w ++ cs.
Proof. reflexivity. Qed.

Lemma tunnels_log (cs : list Call) (w : World) : tunnels (log cs w) = tunnels w.
Proof. reflexivity. Qed.

Lemma jumphost_log (cs : list Call) (w : World) : jumphost (log cs w) = jumphost w.
Proof. reflexivity. Qed.

(** ** [strings.ReplaceAll] against its description *)

Lemma prefix_app (p s : string) :
  String.prefix p s = true -> exists rest, s = p +:+ rest.
Proof.
  revert s. induction p as [|a p IH]; intros s Hp.
  - by exists s.
  - destruct s as [|b s]; simpl in Hp; [done|].
    destruct (Ascii.ascii_dec a b) as [->|]; [|done].
    destruct (IH s Hp) as [rest ->]. by exists rest.
Qed.

Lemma replace_from_skip (old new a s : string) :
  strings.replace_from old new (String.length a) (a +:+ s)
  = strings.replace_from old new 0 s.
Proof. induction a as [|c a IH]; simpl; [done | apply IH]. Qed.

Lemma length_append (a b : string) :
  String.length (a +:+ b) = String.length a + String.length b.
Proof. induction a as [|c a IH]; simpl; [done | by rewrite IH]. Qed.

Lemma ReplaceAll_Replaced (old new s : string) :
  old <> "" -> Replaced old new s (strings.ReplaceAll s old new).
Proof.
  intros Hold. unfold strings.ReplaceAll.
  remember (String.length s) as n eqn:Hn.
  revert s Hn. induction n as [n IH] using lt_wf_ind. intros s Hn.
  destruct s as [|c s]; [constructor|].
  cbn [strings.replace_from].
  destruct (String.prefix old (String c s)) eqn:Hp.
  - destruct (prefix_app _ _ Hp) as [rest Hrest].
    destruct old as [|c0 old']; [done|].
    simpl in Hrest. injection Hrest as -> ->.
    replace (String.length (String c0 old') - 1) with (String.length old')
      by (simpl; lia).
    rewrite replace_from_skip.
    change (String c0 (old' +:+ rest)) with (String c0 old' +:+ rest).
    constructor. eapply IH; [|reflexivity].
    subst n. simpl. rewrite length_append. lia.
  - constructor; [done|]. eapply IH; [|reflexivity]. subst n. simpl. lia.
Qed.

(** ** The value resolver *)

Section Resolver.

Context {C : Type} `{!config.SSMClient C}.

Lemma GetValue_both (cv : config.ConfigValue) (ssmClient : C) (E : string) :
  config.SSMParam cv <> "" -> config.Value cv <> "" ->
  config.GetValue cv ssmClient E
  = ret (err (errorString "cannot specify both value and SSM parameter")).
Proof.
  intros Hp Hv. unfold config.GetValue.
  destruct (String.eqb_spec (config.SSMParam cv) ""); [done|].
  destruct (String.eqb_spec (config.Value cv) ""); done.
Qed.

Lemma GetValue_neither (cv : config.ConfigValue) (ssmClient : C) (E : string) :
  config.SSMParam cv = "" -> config.Value cv = "" ->
  config.GetValue cv ssmClient E
  = ret (err (errorString "no value or SSM parameter specified")).
Proof. intros Hp Hv. unfold config.GetValue. by rewrite Hp, Hv. Qed.

Lemma GetValue_literal (cv : config.ConfigValue) (ssmClient : C) (E : string) :
  config.SSMParam cv = "" -> config.Value cv <> "" ->
  config.GetValue cv ssmClient E = ret (ok (config.Value cv)).
Proof.
  intros Hp Hv. unfold config.GetValue. rewrite Hp.
  destruct (String.eqb_spec (config.Value cv) ""); done.
Qed.

Lemma GetValue_reference (cv : config.ConfigValue) (ssmClient : C) (E : string) :
  config.SSMParam cv <> "" -> config.Value cv = "" ->
  config.GetValue cv ssmClient E
  = config.GetParameter ssmClient
      (strings.ReplaceAll (config.SSMParam cv) PLACEHOLDER E).
Proof.
  intros Hp Hv. unfold config.GetValue. rewrite Hv.
  destruct (String.eqb_spec (config.SSMParam cv) ""); done.
Qed.

(** C5. A value with both its literal and its reference set resolves
    to the conflicting-source error, a value with neither to the
    missing-source error; in both cases the world is left as it was
    found: no call of any kind was made, to the store or elsewhere. *)
Theorem GetValue_conflicting_or_missing_source
    (cv : config.ConfigValue) (ssmClient : C) (E : string) (w : World) :
  (config.Value cv <> "" -> config.SSMParam cv <> "" ->
   config.GetValue cv ssmClient E w
   = (Some (err (errorString "cannot specify both value and SSM parameter")), w))
  /\
  (config.Value cv = "" -> config.SSMParam cv = "" ->
   config.GetValue cv ssmClient E w
   = (Some (err (errorString "no value or SSM parameter specified")), w)).
Proof.
  split; intros Hv Hp.
  - by rewrite GetValue_both.
  - by rewrite GetValue_neither.
Qed.

(** C6. A value holding only a literal [L] resolves to [L] whatever
    the environment name, and the world is left as it was found: the
    store is not called. *)
Theorem GetValue_literal_verbatim
    (cv : config.ConfigValue) (ssmClient : C) (E : string) (w : World) :
  config.Value cv <> "" -> config.SSMParam cv = "" ->
  config.GetValue cv ssmClient E w = (Some (ok (config.Value cv)), w).
Proof. intros Hv Hp. by rewrite GetValue_literal. Qed.

(** C9. The value whose literal and reference are both the empty
    string, which is also the value of an absent entry, resolves to
    the missing-source error without any call. *)
Theorem GetValue_empty_literal_is_missing
    (ssmClient : C) (E : string) (w : World) :
  config.GetValue {| config.Value := ""; config.SSMParam := "" |} ssmClient E w
  = (Some (err (errorString "no value or SSM parameter specified")), w).
Proof. reflexivity. Qed.

End Resolver.

(** C7. A value holding only a reference [R] resolves by one call of
    the client's [GetParameter], on [R] with the token replaced from
    left to right by the environment name, and the call's outcome is
    the outcome of the resolution.  With the AWS client that is one
    [GetParameter] request to the store and nothing else; the store's
    answer decides between the value, the no-value error and the
    wrapped store error. *)
Theorem GetValue_reference_calls_store_once
    (cv : config.ConfigValue) (c : aws.Client) (E : string) (w : World) :
  config.SSMParam cv <> "" -> config.Value cv = "" ->
  let path := strings.ReplaceAll (config.SSMParam cv) PLACEHOLDER E in
  Replaced PLACEHOLDER E (config.SSMParam cv) path
  /\ (forall (C : Type) (I : config.SSMClient C) (ssmClient : C),
        config.GetValue cv ssmClient E = config.GetParameter ssmClient path)
  /\ config.GetValue cv c E w
     = (Some match aws.SSM_GetParameter c path true with
             | ok (Some v) => ok v
             | ok None => err (errorString ("parameter " +:+ path +:+ " has no value"))
             | err e => err (wrapError ("failed to get parameter " +:+ path +:+ ": ") e)
             end,
        log [SSMGetParameter path true] w).
Proof.
  intros Hp Hv path. split; [|split].
  - by apply ReplaceAll_Replaced.
  - intros C I ssmClient. by apply GetValue_reference.
  - rewrite GetValue_reference by done. fold path.
    unfold config.GetParameter, aws.Client_SSMClient, aws.GetParameter,
      aws.GetParameterValue, bind, call.
    by destruct (aws.SSM_GetParameter c path true) as [[v|]|e].
Qed.

Lemma GetValue_conflicting_or_missing_source_witness :
  config.GetValue
    {| config.Value := "db.internal"; config.SSMParam := "/${PLACEHOLDER}/db/host" |}
    fixture.store "prod" fixture.initial
  = (Some (err (errorString "cannot specify both value and SSM parameter")),
     fixture.initial)
  /\
  config.GetValue {| config.Value := ""; config.SSMParam := "" |}
    fixture.store "prod" fixture.initial
  = (Some (err (errorString "no value or SSM parameter specified")),
     fixture.initial).
Proof.
  split.
  - apply (proj1 (GetValue_conflicting_or_missing_source
                    {| config.Value := "db.internal";
                       config.SSMParam := "/${PLACEHOLDER}/db/host" |}
                    fixture.store "prod" fixture.initial)); discriminate.
  - apply (proj2 (GetValue_conflicting_or_missing_source
                    {| config.Value := ""; config.SSMParam := "" |}
                    fixture.store "prod" fixture.initial)); reflexivity.
Defined.

Lemma GetValue_literal_verbatim_witness :
  config.GetValue (config.RemotePort fixture.database) fixture.store "prod"
    fixture.initial
  = (Some (ok "5432"), fixture.initial).
Proof.
  apply (GetValue_literal_verbatim (config.RemotePort fixture.database)
           fixture.store "prod" fixture.initial).
  - discriminate.
  - reflexivity.
Defined.

Lemma GetValue_reference_calls_store_once_witness :
  config.GetValue (config.Host fixture.database) fixture.store "prod" fixture.initial
  = (Some (ok "db.internal"),
     log [SSMGetParameter "/prod/db/host" true] fixture.initial).
Proof.
  apply (proj2 (proj2 (GetValue_reference_calls_store_once
                         (config.Host fixture.database) fixture.store "prod"
                         fixture.initial ltac:(discriminate) ltac:(reflexivity)))).
Defined.

(** The table of [TestGetValue], on the mock client of the tests. *)

Example TestGetValue_direct_value :
  config.GetValue {| config.Value := "test-value"; config.SSMParam := "" |}
    {| config_test.params := ∅; config_test.mock_err := None |} "test" fixture.initial
  = (Some (ok "test-value"), fixture.initial).
Proof. reflexivity. Qed.

Example TestGetValue_ssm_parameter :
  config.GetValue {| config.Value := ""; config.SSMParam := "/test/param" |}
    {| config_test.params := {["/test/param" := "ssm-value"]};
       config_test.mock_err := None |} "test" fixture.initial
  = (Some (ok "ssm-value"), fixture.initial).
Proof. vm_compute. reflexivity. Qed.

Example TestGetValue_both :
  config.GetValue {| config.Value := "test-value"; config.SSMParam := "/test/param" |}
    {| config_test.params := ∅; config_test.mock_err := None |} "test" fixture.initial
  = (Some (err (errorString "cannot specify both value and SSM parameter")),
     fixture.initial).
Proof. reflexivity. Qed.

Example TestGetValue_neither :
  config.GetValue {| config.Value := ""; config.SSMParam := "" |}
    {| config_test.params := ∅; config_test.mock_err := None |} "test" fixture.initial
  = (Some (err (errorString "no value or SSM parameter specified")), fixture.initial).
Proof. reflexivity. Qed.

Example TestGetValue_placeholder :
  config.GetValue {| config.Value := ""; config.SSMParam := "/${PLACEHOLDER}/param" |}
    {| config_test.params := {["/test/param" := "ssm-value"]};
       config_test.mock_err := None |} "test" fixture.initial
  = (Some (ok "ssm-value"), fixture.initial).
Proof. vm_compute. reflexivity. Qed.

(** ** The parameter store client *)

Lemma GetParametersByPath_loop_returns (c : aws.Client) (paths : list string)
    (fuel : nat) :
  forall (i : nat) (parameters : list ssmtypes.Param) (w : World),
    length paths <= i + aws.batchSize * fuel ->
    fst (aws.GetParametersByPath_loop c paths fuel i parameters w) <> None.
Proof.
  unfold aws.batchSize.
  induction fuel as [|fuel IH]; intros i parameters w Hfuel;
    cbn [aws.GetParametersByPath_loop];
    (destruct (Nat.ltb_spec i (length paths)); [|done]); [lia|].
  unfold bind, call.
  destruct (aws.SSM_GetParameters c _) as [found|e]; [|done].
  apply IH. unfold aws.batchSize. lia.
Qed.

(** The batch fetch always returns: its loop ends within the rounds
    it is given. *)
Lemma GetParametersByPath_returns (c : aws.Client) (paths : list string) (w : World) :
  fst (aws.GetParametersByPath c paths w) <> None.
Proof.
  unfold aws.GetParametersByPath, bind.
  pose proof (GetParametersByPath_loop_returns c paths (length paths) 0 [] w) as H.
  destruct (aws.GetParametersByPath_loop c paths (length paths) 0 [] w)
    as [[[parameters|e]|] w'].
  - by destruct (length parameters =? 0).
  - done.
  - exfalso. apply H; [unfold aws.batchSize; lia | done].
Qed.

(** ** The port allocator *)

Section Allocator.

Context (os : OS).

Lemma int_succ_below (n : Z) : (n < max_int)%Z -> int_succ n = (n + 1)%Z.
Proof. intros Hn. unfold int_succ. destruct (Z.eqb_spec n max_int); [lia | done]. Qed.

Lemma findAvailablePort_loop_found (fuel : nat) :
  forall (port end_ P : Z) (w : World),
    (port <= P <= end_)%Z -> (end_ < max_int)%Z ->
    Z.to_nat (P - port + 1) <= fuel ->
    net_Listen os P = true ->
    (forall q, (port <= q < P)%Z -> net_Listen os q = false) ->
    tunnel.findAvailablePort_loop os fuel port end_ w
    = (Some (Some P), log (map NetListen (seqZ port (P - port + 1))) w).
Proof.
  induction fuel as [|fuel IH]; intros port end_ P w HP Hend Hfuel Hfree Hbusy;
    [lia|].
  cbn [tunnel.findAvailablePort_loop].
  destruct (Z.leb_spec port end_); [|lia].
  unfold bind, tunnel.isPortAvailable, call.
  destruct (decide (port = P)) as [->|Hne].
  - rewrite Hfree. by replace (P - P + 1)%Z with 1%Z by lia.
  - rewrite (Hbusy port) by lia. rewrite int_succ_below by lia.
    rewrite (IH (port + 1)%Z end_ P) by (try done; try lia; intros; apply Hbusy; lia).
    rewrite log_log. do 2 f_equal.
    rewrite (seqZ_cons port) by lia. simpl. do 3 f_equal; lia.
Qed.

Lemma findAvailablePort_loop_none (fuel : nat) :
  forall (port end_ : Z) (w : World),
    (end_ < max_int)%Z ->
    Z.to_nat (end_ - port + 1) <= fuel ->
    (forall q, (port <= q <= end_)%Z -> net_Listen os q = false) ->
    tunnel.findAvailablePort_loop os fuel port end_ w
    = (Some None, log (map NetListen (seqZ port (end_ - port + 1))) w).
Proof.
  induction fuel as [|fuel IH]; intros port end_ w Hend Hfuel Hbusy;
    cbn [tunnel.findAvailablePort_loop];
    (destruct (Z.leb_spec port end_);
     [|by rewrite seqZ_nil by lia; unfold ret; rewrite log_nil]); [lia|].
  unfold bind, tunnel.isPortAvailable, call.
  rewrite (Hbusy port) by lia. rewrite int_succ_below by lia.
  rewrite (IH (port + 1)%Z end_) by (try done; try lia; intros; apply Hbusy; lia).
  rewrite log_log. do 2 f_equal.
  rewrite (seqZ_cons port) by lia. simpl. do 3 f_equal; lia.
Qed.

Lemma findAvailablePort_loop_returns (fuel : nat) :
  forall (port end_ : Z) (w : World),
    (end_ < max_int)%Z ->
    Z.to_nat (end_ - port + 1) <= fuel ->
    fst (tunnel.findAvailablePort_loop os fuel port end_ w) <> None.
Proof.
  induction fuel as [|fuel IH]; intros port end_ w Hend Hfuel;
    cbn [tunnel.findAvailablePort_loop];
    (destruct (Z.leb_spec port end_); [|done]); [lia|].
  unfold bind, tunnel.isPortAvailable, call.
  destruct (net_Listen os port); [done|].
  rewrite int_succ_below by lia. apply IH; lia.
Qed.

(** Below the largest [int] the scan always returns. *)
Lemma findAvailablePort_returns (start end_ : Z) (w : World) :
  (end_ < max_int)%Z ->
  fst (tunnel.findAvailablePort os start end_ w) <> None.
Proof.
  intros Hend. unfold tunnel.findAvailablePort, bind.
  pose proof (findAvailablePort_loop_returns
                (Z.to_nat (end_ - start + 1)) start end_ w Hend (le_n _)) as H.
  by destruct (tunnel.findAvailablePort_loop os _ start end_ w) as [[[port|]|] w'].
Qed.

(** C8. For a range that ends below the largest [int]:
    the scan probes [start], [start + 1], ... in this order, stops at
    the first port [P] of the range on which a listener can be bound
    and returns it; when no port of the range can be bound it probes
    them all and fails with the no-port error; so when [P] is the only
    port of the range that can be bound, it returns [P]. *)
Theorem findAvailablePort_first_free (start end_ : Z) (w : World) :
  (end_ < max_int)%Z ->
  (forall P,
      (start <= P <= end_)%Z -> net_Listen os P = true ->
      (forall q, (start <= q < P)%Z -> net_Listen os q = false) ->
      tunnel.findAvailablePort os start end_ w
      = (Some (ok P), log (map NetListen (seqZ start (P - start + 1))) w))
  /\
  ((forall q, (start <= q <= end_)%Z -> net_Listen os q = false) ->
   tunnel.findAvailablePort os start end_ w
   = (Some (err (errorString ("no available ports in range "
                              +:+ fmt_d start +:+ "-" +:+ fmt_d end_))),
      log (map NetListen (seqZ start (end_ - start + 1))) w))
  /\
  (forall P,
      (start <= P <= end_)%Z ->
      (forall q, (start <= q <= end_)%Z -> net_Listen os q = true <-> q = P) ->
      fst (tunnel.findAvailablePort os start end_ w) = Some (ok P)).
Proof.
  intros Hend.
  assert (Hfound : forall P,
      (start <= P <= end_)%Z -> net_Listen os P = true ->
      (forall q, (start <= q < P)%Z -> net_Listen os q = false) ->
      tunnel.findAvailablePort os start end_ w
      = (Some (ok P), log (map NetListen (seqZ start (P - start + 1))) w)).
  { intros P HP Hfree Hbusy. unfold tunnel.findAvailablePort, bind.
    by rewrite (findAvailablePort_loop_found _ start end_ P) by (try done; lia). }
  split; [exact Hfound|split].
  - intros Hbusy. unfold tunnel.findAvailablePort, bind.
    by rewrite findAvailablePort_loop_none by (try done; lia).
  - intros P HP Honly. rewrite (Hfound P); [done|done|by apply Honly|].
    intros q Hq. destruct (net_Listen os q) eqn:Hl; [|done].
    apply Honly in Hl; lia.
Qed.

End Allocator.

Lemma findAvailablePort_first_free_witness :
  tunnel.findAvailablePort fixture.host 5000 5009 fixture.initial
  = (Some (ok 5002%Z),
     log [NetListen 5000; NetListen 5001; NetListen 5002] fixture.initial).
Proof.
  apply (proj1 (findAvailablePort_first_free fixture.host 5000 5009 fixture.initial
                  ltac:(reflexivity)) 5002%Z).
  - lia.
  - reflexivity.
  - intros q Hq. assert (q = 5000 \/ q = 5001)%Z as [->| ->] by lia; reflexivity.
Defined.

(** ** The orchestrator *)

Section Orchestrator.

Context (os : OS).

Lemma per_service_not_describe (cs : list Call) :
  Forall (fun c => per_service c = true) cs ->
  Forall (fun c => is_describe c = false) cs.
Proof. intros H. eapply Forall_impl; [exact H|]. by intros []. Qed.

Lemma per_service_not_kill (cs : list Call) :
  Forall (fun c => per_service c = true) cs ->
  Forall (fun c => is_kill c = false) cs.
Proof. intros H. eapply Forall_impl; [exact H|]. by intros []. Qed.

(** Resolving a value through the AWS client only reads parameters. *)
Lemma GetValue_log (cv : config.ConfigValue) (c : aws.Client) (E : string) (w : World) :
  exists cs, snd (config.GetValue cv c E w) = log cs w
             /\ Forall (fun x => per_service x = true) cs.
Proof.
  unfold config.GetValue.
  destruct (negb (String.eqb (config.SSMParam cv) "")) eqn:Hp;
    destruct (negb (String.eqb (config.Value cv) "")) eqn:Hv; simpl;
    try (exists []; by rewrite log_nil).
  all: exists [SSMGetParameter
                (strings.ReplaceAll (config.SSMParam cv) PLACEHOLDER E) true];
    split; [|by repeat constructor].
  all: unfold config.GetParameter, aws.Client_SSMClient, aws.GetParameter,
         aws.GetParameterValue, bind, call.
  all: by destruct (aws.SSM_GetParameter c _ true) as [[v|]|e].
Qed.

Lemma findAvailablePort_loop_log (fuel : nat) :
  forall (port end_ : Z) (w : World),
    exists cs, snd (tunnel.findAvailablePort_loop os fuel port end_ w) = log cs w
               /\ Forall (fun x => per_service x = true) cs.
Proof.
  induction fuel as [|fuel IH]; intros port end_ w;
    cbn [tunnel.findAvailablePort_loop];
    (destruct (port <=? end_)%Z; [|exists []; by rewrite log_nil]).
  - exists []. by rewrite log_nil.
  - unfold bind, tunnel.isPortAvailable, call.
    destruct (net_Listen os port).
    + by exists [NetListen port]; repeat constructor.
    + destruct (IH (int_succ port) end_ (log [NetListen port] w)) as (cs & -> & Hcs).
      exists (NetListen port :: cs). rewrite log_log. by repeat constructor.
Qed.

Lemma findAvailablePort_log (start end_ : Z) (w : World) :
  exists cs, snd (tunnel.findAvailablePort os start end_ w) = log cs w
             /\ Forall (fun x => per_service x = true) cs.
Proof.
  unfold tunnel.findAvailablePort, bind.
  destruct (findAvailablePort_loop_log (Z.to_nat (end_ - start + 1)) start end_ w)
    as (cs & Hw & Hcs).
  destruct (tunnel.findAvailablePort_loop _ _ _ _ w) as [[[p|]|] w']; simpl in *;
    subst w'; by exists cs.
Qed.

(** The jumphost query is one [DescribeInstances] request. *)
Lemma GetJumphost_log (m : tunnel.Manager) (w : World) :
  snd (tunnel.GetJumphost os m w)
  = log [EC2DescribeInstances
           (aws.jumphost_filters
              (strings.ReplaceAll
                 (config.GetJumphostFilter (tunnel.config m) (tunnel.env m))
                 PLACEHOLDER (tunnel.env m)))] w.
Proof.
  unfold tunnel.GetJumphost, aws.GetJumphost, bind, call.
  destruct (aws.EC2_DescribeInstances _ _) as [rs|e]; [|done].
  destruct (length (aws.running_instances rs) =? 0); [done|].
  by destruct (aws.running_instances rs !! _).
Qed.

(** One service's tunnel, with the jumphost already known: every
    outside call is a parameter read, a port probe or the launch; the
    registry and the jumphost are left alone unless the launch
    succeeded, and then the session just started is stored under the
    service's name. *)
Lemma CreateTunnel_cached (m : tunnel.Manager) (serviceName : string)
    (serviceConfig : config.ServiceConfig) (w : World) (jh : types.Instance) :
  jumphost w = Some jh ->
  exists cs,
    Forall (fun x => per_service x = true) cs
    /\ ((fst (tunnel.CreateTunnel os m serviceName serviceConfig w) <> Some None
         /\ snd (tunnel.CreateTunnel os m serviceName serviceConfig w) = log cs w)
        \/ (exists cmd,
              fst (tunnel.CreateTunnel os m serviceName serviceConfig w) = Some None
              /\ snd (tunnel.CreateTunnel os m serviceName serviceConfig w)
                 = register serviceName cmd (log cs w)
              /\ last cs = Some (ExecStart (exec.Args cmd))
              /\ exec_Start os (exec.Args cmd) = ok (exec.Process cmd))).
Proof.
  intros Hjh. unfold tunnel.CreateTunnel, orFail, bind.
  destruct (GetValue_log (config.Host serviceConfig) (tunnel.client m) (tunnel.env m) w)
    as (cs1 & Hw1 & Hcs1).
  destruct (config.GetValue (config.Host serviceConfig) _ _ w) as [[[host|e]|] w1];
    simpl in Hw1; subst w1; [|by exists cs1; split; [|left]..].
  destruct (GetValue_log (config.RemotePort serviceConfig) (tunnel.client m)
              (tunnel.env m) (log cs1 w)) as (cs2 & Hw2 & Hcs2).
  destruct (config.GetValue (config.RemotePort serviceConfig) _ _ _)
    as [[[remotePort|e]|] w2];
    simpl in Hw2; subst w2; rewrite log_log;
    [|by exists (cs1 ++ cs2); split; [rewrite Forall_app|left]..].
  unfold get_jumphost. rewrite jumphost_log, Hjh.
  destruct (findAvailablePort_log
              (config.Start (config.LocalPortRange serviceConfig))
              (config.End_ (config.LocalPortRange serviceConfig))
              (log (cs1 ++ cs2) w)) as (cs3 & Hw3 & Hcs3).
  destruct (tunnel.findAvailablePort os _ _ _) as [[[localPort|e]|] w3];
    simpl in Hw3; subst w3; rewrite log_log;
    [|by exists ((cs1 ++ cs2) ++ cs3); split; [rewrite !Forall_app|left]..].
  unfold call, Store, ret. rewrite log_log.
  match goal with |- context [exec_Start os ?a] => set (argv := a) end.
  exists (((cs1 ++ cs2) ++ cs3) ++ [ExecStart argv]).
  split; [rewrite !Forall_app; repeat split; try done; by repeat constructor|].
  destruct (exec_Start os argv) as [pid|e] eqn:Hstart; [right|by left].
  exists {| exec.Args := argv; exec.Process := pid |}.
  by rewrite last_snoc.
Qed.

Lemma load_store (k k' : string) (v : exec.Cmd) (l : list (string * exec.Cmd)) :
  load k (store k' v l) = if String.eqb k k' then Some v else load k l.
Proof.
  induction l as [|[k0 v0] l IH]; simpl; [done|].
  destruct (String.eqb_spec k' k0) as [->|Hne]; simpl.
  - by destruct (String.eqb k k0).
  - rewrite IH. destruct (String.eqb_spec k k0) as [->|]; [|done].
    by destruct (String.eqb_spec k0 k').
Qed.

Lemma load_store_is_Some (k k' : string) (v : exec.Cmd) (l : list (string * exec.Cmd)) :
  is_Some (load k l) -> is_Some (load k (store k' v l)).
Proof. rewrite load_store. by destruct (String.eqb k k'). Qed.

(** The loop over the services, with the jumphost known: only
    per-service calls are made, the jumphost stays, and no key leaves
    the registry. *)
Lemma CreateTunnels_loop_frame (m : tunnel.Manager) (services : list string) :
  forall (lastError : option error) (w : World) (jh : types.Instance),
    jumphost w = Some jh ->
    exists cs,
      Forall (fun x => per_service x = true) cs
      /\ calls (snd (tunnel.CreateTunnels_loop os m services lastError w))
         = calls w ++ cs
      /\ jumphost (snd (tunnel.CreateTunnels_loop os m services lastError w))
         = Some jh
      /\ forall k,
          is_Some (load k (tunnels w)) ->
          is_Some (load k (tunnels
                     (snd (tunnel.CreateTunnels_loop os m services lastError w)))).
Proof.
  induction services as [|serviceName rest IH]; intros lastError w jh Hjh;
    cbn [tunnel.CreateTunnels_loop].
  { exists []. by rewrite app_nil_r. }
  destruct (config.GetServiceConfig _ serviceName) as [serviceConfig|e];
    [|by apply IH].
  unfold bind.
  destruct (CreateTunnel_cached m serviceName serviceConfig w jh Hjh)
    as (cs & Hcs & [[Hfst Hw]|(cmd & Hfst & Hw & _)]);
    destruct (tunnel.CreateTunnel os m serviceName serviceConfig w)
      as [[[e|]|] w1]; simpl in Hfst, Hw; subst w1; try done.
  - destruct (IH (Some e) (log cs w) jh Hjh) as (cs' & Hcs' & Hcalls & Hj & Hreg).
    exists (cs ++ cs'). split_and!; [by apply Forall_app| |done|done].
    rewrite Hcalls. simpl. by rewrite app_assoc.
  - by exists cs.
  - destruct (IH lastError (register serviceName cmd (log cs w)) jh Hjh)
      as (cs' & Hcs' & Hcalls & Hj & Hreg).
    exists (cs ++ cs'). split_and!; [by apply Forall_app| |done|].
    { rewrite Hcalls. simpl. by rewrite app_assoc. }
    intros k Hk. apply Hreg. simpl. by apply load_store_is_Some.
Qed.

(** A batch asks for the jumphost first, makes per-service calls after
    that, and removes no key from the registry. *)
Lemma CreateTunnels_frame (m : tunnel.Manager) (services : list string) (w : World) :
  exists cs,
    Forall (fun x => per_service x = true) cs
    /\ calls (snd (tunnel.CreateTunnels os m services w))
       = calls w
         ++ EC2DescribeInstances
              (aws.jumphost_filters
                 (strings.ReplaceAll
                    (config.GetJumphostFilter (tunnel.config m) (tunnel.env m))
                    PLACEHOLDER (tunnel.env m))) :: cs
    /\ forall k,
        is_Some (load k (tunnels w)) ->
        is_Some (load k (tunnels (snd (tunnel.CreateTunnels os m services w)))).
Proof.
  unfold tunnel.CreateTunnels, orFail, bind.
  pose proof (GetJumphost_log m w) as Hw.
  destruct (tunnel.GetJumphost os m w) as [[[instance|e]|] w1]; simpl in Hw; subst w1;
    [|by exists []..].
  unfold set_jumphost.
  match goal with |- context [tunnel.CreateTunnels_loop os m services None ?w1] =>
    destruct (CreateTunnels_loop_frame m services None w1 instance eq_refl)
      as (cs & Hcs & Hcalls & _ & Hreg);
    destruct (tunnel.CreateTunnels_loop os m services None w1) as [[[e|]|] w2]
  end; simpl in *; exists cs; by rewrite Hcalls, <- app_assoc.
Qed.

(** C4. In every batch the first outside call is the jumphost query,
    on the filter with the environment name substituted, and no later
    call of the batch is a jumphost query.  When the query answers
    with no running instance, the batch returns the no-running-instance
    error wrapped as a jumphost failure, and leaves the world as it
    found it but for that one query: no service was attempted and no
    session was stored. *)
Theorem CreateTunnels_resolves_jumphost_once
    (m : tunnel.Manager) (services : list string) (w : World) :
  let filter :=
    strings.ReplaceAll (config.GetJumphostFilter (tunnel.config m) (tunnel.env m))
                       PLACEHOLDER (tunnel.env m) in
  let query := EC2DescribeInstances (aws.jumphost_filters filter) in
  (exists rest,
      calls (snd (tunnel.CreateTunnels os m services w)) = calls w ++ query :: rest
      /\ Forall (fun c => is_describe c = false) rest)
  /\
  (forall reservations,
      aws.EC2_DescribeInstances (tunnel.client m) (aws.jumphost_filters filter)
      = ok reservations ->
      aws.running_instances reservations = [] ->
      tunnel.CreateTunnels os m services w
      = (Some (Some (wrapError "failed to find jumphost instance: "
                       (errorString ("no running instances found matching filter: "
                                     +:+ filter)))),
         log [query] w)).
Proof.
  intros filter query. split.
  - destruct (CreateTunnels_frame m services w) as (cs & Hcs & Hcalls & _).
    exists cs. split; [exact Hcalls | by apply per_service_not_describe].
  - intros reservations Hanswer Hnone.
    unfold tunnel.CreateTunnels, orFail, bind, tunnel.GetJumphost, aws.GetJumphost,
      bind, call.
    fold filter. by rewrite Hanswer, Hnone.
Qed.

(** C3. A batch over [[A; B]] in which the jumphost resolves, the
    tunnel of [A] launches and the host of [B] does not resolve
    returns one error: the failure of [B], wrapped as a batch failure,
    whose message spells out the name of [B].  The session of [A] is then in the registry
    under [A], it is the process the launch started, and the batch
    asked for no process to be killed. *)
Theorem CreateTunnels_partial_success
    (m : tunnel.Manager) (A B : string) (cfgA cfgB : config.ServiceConfig)
    (instance : types.Instance) (e : error) (w w1 w2 w3 : World) :
  config.GetServiceConfig (tunnel.config m) A = ok cfgA ->
  config.GetServiceConfig (tunnel.config m) B = ok cfgB ->
  tunnel.GetJumphost os m w = (Some (ok instance), w1) ->
  tunnel.CreateTunnel os m A cfgA
    {| tunnels := tunnels w1; jumphost := Some instance; calls := calls w1 |}
  = (Some None, w2) ->
  config.GetValue (config.Host cfgB) (tunnel.client m) (tunnel.env m) w2
  = (Some (err e), w3) ->
  tunnel.CreateTunnels os m [A; B] w
  = (Some (Some (wrapError "one or more tunnels failed to create: "
                   (wrapError ("failed to get host for " +:+ B +:+ ": ") e))),
     w3)
  /\ Error (wrapError "one or more tunnels failed to create: "
              (wrapError ("failed to get host for " +:+ B +:+ ": ") e))
     = "one or more tunnels failed to create: "
       +:+ ("failed to get host for " +:+ B +:+ ": ") +:+ Error e
  /\ (exists cmd cs,
         load A (tunnels w3) = Some cmd
         /\ exec_Start os (exec.Args cmd) = ok (exec.Process cmd)
         /\ calls w3 = calls w ++ cs
         /\ ExecStart (exec.Args cmd) ∈ cs
         /\ Forall (fun c => is_kill c = false) cs).
Proof.
  intros HA HB Hjh HlA HfB.
  assert (Hrun : tunnel.CreateTunnels os m [A; B] w
                 = (Some (Some (wrapError "one or more tunnels failed to create: "
                                  (wrapError ("failed to get host for " +:+ B +:+ ": ") e))),
                    w3)).
  { unfold tunnel.CreateTunnels, orFail, bind. rewrite Hjh.
    unfold set_jumphost. cbn [tunnel.CreateTunnels_loop]. rewrite HA, HB.
    unfold bind. rewrite HlA.
    unfold tunnel.CreateTunnel at 1. unfold orFail, bind. by rewrite HfB. }
  split; [exact Hrun|]. split; [reflexivity|].
  destruct (CreateTunnels_frame m [A; B] w) as (cs & Hcs & Hcalls & _).
  rewrite Hrun in Hcalls. simpl in Hcalls.
  destruct (CreateTunnel_cached m A cfgA
              {| tunnels := tunnels w1; jumphost := Some instance; calls := calls w1 |}
              instance eq_refl)
    as (csA & HcsA & [[Hfst _]|(cmd & _ & Hw2 & Hlast & Hstart)]);
    rewrite HlA in *; simpl in *; [done|].
  destruct (GetValue_log (config.Host cfgB) (tunnel.client m) (tunnel.env m) w2)
    as (csB & Hw3 & HcsB).
  rewrite HfB in Hw3. simpl in Hw3.
  pose proof (GetJumphost_log m w) as Hw1. rewrite Hjh in Hw1. simpl in Hw1.
  exists cmd, (EC2DescribeInstances
                 (aws.jumphost_filters
                    (strings.ReplaceAll
                       (config.GetJumphostFilter (tunnel.config m) (tunnel.env m))
                       PLACEHOLDER (tunnel.env m))) :: cs).
  split_and!.
  - subst w3 w2. simpl. rewrite load_store. by rewrite String.eqb_refl.
  - done.
  - done.
  - apply (f_equal calls) in Hw3, Hw2. simpl in Hw3, Hw2.
    rewrite Hw3, Hw2, Hw1 in Hcalls. simpl in Hcalls.
    rewrite <- !app_assoc in Hcalls. apply app_inv_head in Hcalls.
    simpl in Hcalls. injection Hcalls as <-.
    apply list_elem_of_further, elem_of_app. left.
    apply last_Some in Hlast as [l' ->]. apply elem_of_app. right. by left.
  - constructor; [done | by apply per_service_not_kill].
Qed.

End Orchestrator.

Lemma CreateTunnels_resolves_jumphost_once_witness :
  tunnel.CreateTunnels fixture.host (fixture.manager fixture.store_no_jumphost)
    ["database"; "cache"] fixture.initial
  = (Some (Some (wrapError "failed to find jumphost instance: "
                   (errorString
                      "no running instances found matching filter: prod-ecs-autoscaled"))),
     log [EC2DescribeInstances (aws.jumphost_filters "prod-ecs-autoscaled")]
       fixture.initial).
Proof.
  apply (proj2 (CreateTunnels_resolves_jumphost_once fixture.host
                  (fixture.manager fixture.store_no_jumphost)
                  ["database"; "cache"] fixture.initial)
           [[fixture.stopped]]); reflexivity.
Defined.

Lemma CreateTunnels_partial_success_witness :
  exists w3,
    tunnel.CreateTunnels fixture.host (fixture.manager fixture.store)
      ["database"; "cache"] fixture.initial
    = (Some (Some (wrapError "one or more tunnels failed to create: "
                     (wrapError ("failed to get host for " +:+ "cache" +:+ ": ")
                        (wrapError "failed to get parameter /prod/cache/host: "
                           (errorString "ParameterNotFound"))))),
       w3)
    /\ Error (wrapError "one or more tunnels failed to create: "
                (wrapError ("failed to get host for " +:+ "cache" +:+ ": ")
                   (wrapError "failed to get parameter /prod/cache/host: "
                      (errorString "ParameterNotFound"))))
       = "one or more tunnels failed to create: "
         +:+ ("failed to get host for " +:+ "cache" +:+ ": ")
         +:+ Error (wrapError "failed to get parameter /prod/cache/host: "
                      (errorString "ParameterNotFound"))
    /\ (exists cmd cs,
           load "database" (tunnels w3) = Some cmd
           /\ exec_Start fixture.host (exec.Args cmd) = ok (exec.Process cmd)
           /\ calls w3 = calls fixture.initial ++ cs
           /\ ExecStart (exec.Args cmd) ∈ cs
           /\ Forall (fun c => is_kill c = false) cs).
Proof.
  eexists.
  eapply (CreateTunnels_partial_success fixture.host (fixture.manager fixture.store)
            "database" "cache" fixture.database fixture.cache fixture.bastion).
  - reflexivity.
  - reflexivity.
  - vm_compute. reflexivity.
  - vm_compute. reflexivity.
  - vm_compute. reflexivity.
Defined.

(** ** The last segment of a parameter name *)

From Stdlib Require Import Ascii.

Lemma prefix_slash (c : Ascii.ascii) (s : string) :
  String.prefix "/" (String c s) = bool_decide (c = "/"%char).
Proof.
  cbn [String.prefix]. destruct (Ascii.ascii_dec "/" c) as [<-|Hne].
  - rewrite bool_decide_eq_true_2 by done. by destruct s.
  - by rewrite bool_decide_eq_false_2 by congruence.
Qed.

Lemma Split_slash (s : string) :
  strings.Split (String "/" s) "/" = "" :: strings.Split s "/".
Proof.
  unfold strings.Split. cbn [strings.split_from].
  by rewrite prefix_slash, bool_decide_eq_true_2.
Qed.

Lemma Split_other (c : Ascii.ascii) (s : string) :
  c <> "/"%char ->
  strings.Split (String c s) "/"
  = match strings.Split s "/" with
    | seg :: rest => String c seg :: rest
    | [] => [String c ""]
    end.
Proof.
  intros Hc. unfold strings.Split. cbn [strings.split_from].
  by rewrite prefix_slash, bool_decide_eq_false_2.
Qed.

Lemma Split_nonempty (s : string) :
  exists seg rest, strings.Split s "/" = seg :: rest.
Proof.
  induction s as [|c s (seg & rest & IH)]; [by exists "", []|].
  destruct (decide (c = "/"%char)) as [->|Hc].
  - rewrite Split_slash. eauto.
  - rewrite Split_other, IH by done. eauto.
Qed.

Lemma Split_no_slash (b : string) :
  String.index 0 "/" b = None -> strings.Split b "/" = [b].
Proof.
  induction b as [|c b IH]; [done|].
  cbn [String.index]. rewrite prefix_slash.
  destruct (decide (c = "/"%char)) as [->|Hc].
  - by rewrite bool_decide_eq_true_2.
  - rewrite bool_decide_eq_false_2 by done.
    destruct (String.index 0 "/" b); [done|]. intros _.
    by rewrite Split_other, IH.
Qed.

Lemma Split_after_slash (a b : string) :
  exists seg x rest,
    strings.Split (a +:+ "/" +:+ b) "/" = seg :: x :: rest
    /\ last (x :: rest) = last (strings.Split b "/").
Proof.
  destruct (Split_nonempty b) as (x0 & rest0 & Hb).
  induction a as [|c a (seg & x & rest & IH & Hlast)].
  - exists "", x0, rest0.
    change ("" +:+ "/" +:+ b) with (String "/"%char b).
    by rewrite Split_slash, Hb.
  - change (String c a +:+ "/" +:+ b) with (String c (a +:+ "/" +:+ b)).
    destruct (decide (c = "/"%char)) as [->|Hc].
    + rewrite Split_slash, IH. exists "", seg, (x :: rest). by rewrite <- Hlast.
    + rewrite Split_other, IH by done. by exists (String c seg), x, rest.
Qed.

Lemma index_slash_cons (c : Ascii.ascii) (s : string) :
  String.index 0 "/" (String c s) = None
  <-> c <> "/"%char /\ String.index 0 "/" s = None.
Proof.
  cbn [String.index]. rewrite prefix_slash.
  destruct (decide (c = "/"%char)) as [->|Hc].
  - rewrite bool_decide_eq_true_2 by done. naive_solver.
  - rewrite bool_decide_eq_false_2 by done.
    destruct (String.index 0 "/" s); naive_solver.
Qed.

(** The key the code computes is the last segment of a name it is
    given as such ... *)
Lemma last_segment_slash_free (a b : string) :
  String.index 0 "/" b = None ->
  tunnel.last_segment b = b
  /\ tunnel.last_segment (a +:+ "/" +:+ b) = b.
Proof.
  intros Hb. unfold tunnel.last_segment. split.
  - by rewrite Split_no_slash.
  - destruct (Split_after_slash a b) as (seg & x & rest & -> & Hlast).
    rewrite Split_no_slash in Hlast by done.
    cbn [length Nat.ltb Nat.leb]. change (last (seg :: x :: rest)) with (last (x :: rest)).
    by rewrite Hlast.
Qed.

(** ... and every name has one: the parts of a name are the name
    itself, free of slashes, or at least two parts the last of which
    is free of slashes and ends the name after a slash. *)
Lemma Split_last (n : string) :
  (strings.Split n "/" = [n] /\ String.index 0 "/" n = None)
  \/ (exists a x y rest seg,
         strings.Split n "/" = x :: y :: rest
         /\ last (y :: rest) = Some seg
         /\ String.index 0 "/" seg = None
         /\ n = a +:+ "/" +:+ seg).
Proof.
  induction n as [|c n IH]; [by left|].
  destruct (decide (c = "/"%char)) as [->|Hc].
  - right. rewrite Split_slash.
    destruct IH as [[-> Hn]|(a & x & y & rest & seg & -> & Hlast & Hseg & ->)].
    + by exists "", "", n, [], n.
    + by exists (String "/" a), "", x, (y :: rest), seg.
  - rewrite Split_other by done.
    destruct IH as [[-> Hn]|(a & x & y & rest & seg & -> & Hlast & Hseg & ->)].
    + left. split; [done|]. by apply index_slash_cons.
    + right. by exists (String c a), (String c x), y, rest, seg.
Qed.

Lemma last_segment_is_last_segment (n : string) :
  is_last_segment (tunnel.last_segment n) n.
Proof.
  unfold tunnel.last_segment, is_last_segment.
  destruct (Split_last n) as [[-> Hn]|(a & x & y & rest & seg & -> & Hlast & Hseg & ->)].
  - simpl. split; [done | by left].
  - cbn [length Nat.ltb Nat.leb].
    change (last (x :: y :: rest)) with (last (y :: rest)). rewrite Hlast. simpl.
    split; [done | right; by exists a].
Qed.

(** The key the code computes for a name is its last segment, and
    nothing else is. *)
Lemma last_segment_iff (n key : string) :
  tunnel.last_segment n = key <-> is_last_segment key n.
Proof.
  split.
  - intros <-. apply last_segment_is_last_segment.
  - intros [Hkey [->|[a ->]]].
    + by apply (last_segment_slash_free "" key).
    + by apply last_segment_slash_free.
Qed.

(** ** The detail query *)

Section Details.

Context (m : tunnel.Manager) (serviceName : string)
        (serviceConfig : config.ServiceConfig).

(** Once a key holds [v], parameters filed under other keys leave it
    alone. *)
Lemma add_parameters_other (k v : string) (after : list ssmtypes.Param) :
  forall details : gmap string string,
    (forall q n' v', q ∈ after -> ssmtypes.Name q = Some n' ->
                     ssmtypes.Value q = Some v' -> tunnel.last_segment n' <> k) ->
    details !! k = Some v ->
    tunnel.add_parameters details after !! k = Some v.
Proof.
  unfold tunnel.add_parameters.
  induction after as [|q after IH]; intros details Hother Hk; simpl; [done|].
  apply IH.
  - intros q' n' v' Hq'. apply Hother. by right.
  - destruct (ssmtypes.Name q) as [n'|] eqn:Hn; [|done].
    destruct (ssmtypes.Value q) as [v'|] eqn:Hv; [|done].
    rewrite lookup_insert_ne; [done|].
    eapply Hother; [by left|done..].
Qed.

Lemma add_parameters_last (details : gmap string string)
    (before after : list ssmtypes.Param) (p : ssmtypes.Param) (n v : string) :
  ssmtypes.Name p = Some n -> ssmtypes.Value p = Some v ->
  (forall q n' v', q ∈ after -> ssmtypes.Name q = Some n' ->
                   ssmtypes.Value q = Some v' ->
                   tunnel.last_segment n' <> tunnel.last_segment n) ->
  tunnel.add_parameters details (before ++ p :: after) !! tunnel.last_segment n
  = Some v.
Proof.
  intros Hn Hv Hother.
  unfold tunnel.add_parameters. rewrite foldl_app. simpl. rewrite Hn, Hv.
  apply add_parameters_other; [done|]. by rewrite lookup_insert_eq.
Qed.

(** C10. When the host and the remote port resolve and the batch
    fetch answers, the returned map is built from the resolved host
    and remote port by filing the fetched parameters in order and
    writing the port-range entry last.  A fetched parameter with name
    [n] and value [v] is filed under the last of the slash-separated
    segments of [n]: that key holds no slash, and [n] is the key or
    ends in a slash followed by it.  When its turn comes [v] replaces
    whatever the key held, be it an earlier parameter with the same
    last segment or the resolved host or remote port; and when no
    later parameter has that last segment (and the key is not the
    port-range key) the returned map holds [v] under it. *)
Theorem GetServiceDetails_files_under_last_segment
    (host remotePort : string) (before after : list ssmtypes.Param)
    (p : ssmtypes.Param) (n v : string) (w w1 w2 w3 : World) :
  config.GetValue (config.Host serviceConfig) (tunnel.client m) (tunnel.env m) w
  = (Some (ok host), w1) ->
  config.GetValue (config.RemotePort serviceConfig) (tunnel.client m) (tunnel.env m) w1
  = (Some (ok remotePort), w2) ->
  config.ServiceDetails serviceConfig <> [] ->
  aws.GetParametersByPath (tunnel.client m)
    (map (fun path => strings.ReplaceAll path PLACEHOLDER (tunnel.env m))
         (config.ServiceDetails serviceConfig)) w2
  = (Some (ok (before ++ p :: after)), w3) ->
  ssmtypes.Name p = Some n -> ssmtypes.Value p = Some v ->
  let resolved : gmap string string :=
    <["remote_port" := remotePort]> (<["host" := host]> ∅) in
  exists key details,
    is_last_segment key n
    /\ tunnel.GetServiceDetails m serviceName serviceConfig w = (Some (ok details), w3)
    /\ details
       = <["local_port_range" :=
             fmt_d (config.Start (config.LocalPortRange serviceConfig))
             +:+ "-" +:+
             fmt_d (config.End_ (config.LocalPortRange serviceConfig))]>
           (tunnel.add_parameters
              (<[key := v]> (tunnel.add_parameters resolved before))
              after)
    /\ ((forall q n' v', q ∈ after -> ssmtypes.Name q = Some n' ->
                         ssmtypes.Value q = Some v' ->
                         ~ is_last_segment key n') ->
        key <> "local_port_range" ->
        details !! key = Some v).
Proof.
  intros Hhost Hport Hpaths Hfetch Hn Hv resolved.
  exists (tunnel.last_segment n).
  unfold tunnel.GetServiceDetails, orErr, bind. rewrite Hhost, Hport.
  destruct (config.ServiceDetails serviceConfig) as [|path paths]; [done|].
  cbn [length Nat.ltb Nat.leb]. cbv beta iota.
  rewrite Hfetch. unfold ret. eexists.
  split; [apply last_segment_is_last_segment|]. split; [reflexivity|].
  fold resolved. split.
  - unfold tunnel.add_parameters. rewrite foldl_app. simpl. by rewrite Hn, Hv.
  - intros Hother Hrange. rewrite lookup_insert_ne by done.
    apply add_parameters_last; [done|done|].
    intros q n' v' Hq Hn' Hv' Hsame. apply (Hother q n' v' Hq Hn' Hv').
    by apply last_segment_iff.
Qed.

(** When the batch fetch fails, what is returned is the map of the
    resolved host and remote port, without a port-range entry. *)
Lemma GetServiceDetails_fetch_error
    (host remotePort : string) (e : error) (w w1 w2 w3 : World) :
  config.GetValue (config.Host serviceConfig) (tunnel.client m) (tunnel.env m) w
  = (Some (ok host), w1) ->
  config.GetValue (config.RemotePort serviceConfig) (tunnel.client m) (tunnel.env m) w1
  = (Some (ok remotePort), w2) ->
  config.ServiceDetails serviceConfig <> [] ->
  aws.GetParametersByPath (tunnel.client m)
    (map (fun path => strings.ReplaceAll path PLACEHOLDER (tunnel.env m))
         (config.ServiceDetails serviceConfig)) w2
  = (Some (err e), w3) ->
  tunnel.GetServiceDetails m serviceName serviceConfig w
  = (Some (ok (<["remote_port" := remotePort]> (<["host" := host]> ∅))), w3).
Proof.
  intros Hhost Hport Hpaths Hfetch.
  unfold tunnel.GetServiceDetails, orErr, bind. rewrite Hhost, Hport.
  destruct (config.ServiceDetails serviceConfig) as [|path paths]; [done|].
  cbn [length Nat.ltb Nat.leb]. cbv beta iota.
  by rewrite Hfetch.
Qed.

End Details.

Lemma GetServiceDetails_files_under_last_segment_witness :
  (exists details w3,
      tunnel.GetServiceDetails (fixture.manager fixture.store) "database"
        fixture.database fixture.initial
      = (Some (ok details), w3)
      /\ details !! "user" = Some "admin")
  /\ (exists details w3,
         tunnel.GetServiceDetails (fixture.manager fixture.store) "database"
           fixture.database fixture.initial
         = (Some (ok details), w3)
         /\ details !! "host" = Some "replica.internal").
Proof.
  split.
  - destruct (GetServiceDetails_files_under_last_segment
                (fixture.manager fixture.store) "database" fixture.database
                "db.internal" "5432"
                []
                [ {| ssmtypes.Name := Some "/prod/replica/host";
                     ssmtypes.Value := Some "replica.internal" |} ]
                {| ssmtypes.Name := Some "/prod/db/user";
                   ssmtypes.Value := Some "admin" |}
                "/prod/db/user" "admin"
                fixture.initial
                (log [SSMGetParameter "/prod/db/host" true] fixture.initial)
                (log [SSMGetParameter "/prod/db/host" true] fixture.initial)
                (log [SSMGetParameter "/prod/db/host" true;
                      SSMGetParameters ["/prod/db/user"; "/prod/replica/host"]]
                   fixture.initial))
      as (key & details & Hkey & Hrun & _ & Hlookup).
    + reflexivity.
    + reflexivity.
    + discriminate.
    + reflexivity.
    + reflexivity.
    + reflexivity.
    + apply last_segment_iff in Hkey. vm_compute in Hkey. subst key.
      exists details, (log [SSMGetParameter "/prod/db/host" true;
                            SSMGetParameters ["/prod/db/user"; "/prod/replica/host"]]
                         fixture.initial).
      split; [exact Hrun|]. apply Hlookup.
      * intros q n' v' Hq Hn' Hv' Hlast.
        apply list_elem_of_singleton in Hq. subst q.
        injection Hn' as <-. apply last_segment_iff in Hlast. discriminate.
      * discriminate.
  - destruct (GetServiceDetails_files_under_last_segment
                (fixture.manager fixture.store) "database" fixture.database
                "db.internal" "5432"
                [ {| ssmtypes.Name := Some "/prod/db/user";
                     ssmtypes.Value := Some "admin" |} ]
                []
                {| ssmtypes.Name := Some "/prod/replica/host";
                   ssmtypes.Value := Some "replica.internal" |}
                "/prod/replica/host" "replica.internal"
                fixture.initial
                (log [SSMGetParameter "/prod/db/host" true] fixture.initial)
                (log [SSMGetParameter "/prod/db/host" true] fixture.initial)
                (log [SSMGetParameter "/prod/db/host" true;
                      SSMGetParameters ["/prod/db/user"; "/prod/replica/host"]]
                   fixture.initial))
      as (key & details & Hkey & Hrun & _ & Hlookup).
    + reflexivity.
    + reflexivity.
    + discriminate.
    + reflexivity.
    + reflexivity.
    + reflexivity.
    + apply last_segment_iff in Hkey. vm_compute in Hkey. subst key.
      exists details, (log [SSMGetParameter "/prod/db/host" true;
                            SSMGetParameters ["/prod/db/user"; "/prod/replica/host"]]
                         fixture.initial).
      split; [exact Hrun|]. apply Hlookup.
      * intros q n' v' Hq. inversion Hq.
      * discriminate.
Defined.

(** C2 (what the code does on the failing input). With the batch
    operation of the store out of order, the detail query of the
    [database] service returns no error and a map that holds the host
    and the remote port only: the early return leaves before the
    port-range entry is written. *)
Theorem GetServiceDetails_fetch_error_omits_port_range :
  exists details w3,
    tunnel.GetServiceDetails (fixture.manager fixture.store_batch_down) "database"
      fixture.database fixture.initial
    = (Some (ok details), w3)
    /\ details !! "host" = Some "db.internal"
    /\ details !! "remote_port" = Some "5432"
    /\ details !! "local_port_range" = None.
Proof.
  eexists _, _. split.
  - eapply (GetServiceDetails_fetch_error (fixture.manager fixture.store_batch_down)
              "database" fixture.database "db.internal" "5432").
    + vm_compute. reflexivity.
    + vm_compute. reflexivity.
    + discriminate.
    + vm_compute. reflexivity.
  - by split_and!.
Qed.

(** ** Cleanup *)

Section Cleanup.

Context (os : OS).

(** While the kills succeed, [Range] goes on and the captured
    variable keeps its value. *)
Lemma Range_kill_all (entries : list (string * exec.Cmd)) :
  forall (lastErr : option error) (w : World),
    Forall (fun entry => Process_Kill os (exec.Process entry.2) = None) entries ->
    Range (tunnel.kill_tunnel os) entries lastErr w
    = (Some lastErr, log (map kill_of entries) w).
Proof.
  induction entries as [|[k cmd] entries IH]; intros lastErr w Hall; simpl.
  - unfold ret. by rewrite log_nil.
  - inversion_clear Hall as [|? ? Hk Hrest]. simpl in Hk.
    unfold bind, tunnel.kill_tunnel, bind, call. rewrite Hk. simpl.
    rewrite IH by done. by rewrite log_log.
Qed.

(** At the first kill that fails, [Range] stops: the entries after it
    are not visited. *)
Lemma Range_kill_stops (before after : list (string * exec.Cmd))
    (k : string) (cmd : exec.Cmd) (e : error) :
  forall (lastErr : option error) (w : World),
    Forall (fun entry => Process_Kill os (exec.Process entry.2) = None) before ->
    Process_Kill os (exec.Process cmd) = Some e ->
    Range (tunnel.kill_tunnel os) (before ++ (k, cmd) :: after) lastErr w
    = (Some (Some (wrapError "failed to kill tunnel process: " e)),
       log (map kill_of before ++ [kill_of (k, cmd)]) w).
Proof.
  induction before as [|[k0 cmd0] before IH]; intros lastErr w Hall Hfail; simpl.
  - unfold bind, tunnel.kill_tunnel, bind, call. by rewrite Hfail.
  - inversion_clear Hall as [|? ? Hk Hrest]. simpl in Hk.
    unfold bind, tunnel.kill_tunnel, bind, call. rewrite Hk. simpl.
    rewrite IH by done. by rewrite log_log.
Qed.

End Cleanup.

(** C1 (what the code does on the failing input). With three sessions
    registered and the second one's process refusing to die, cleanup
    asks to kill the first and the second, returns the second's
    failure, and never asks to kill the third. *)
Theorem CleanupTunnels_stops_at_first_failure :
  tunnel.CleanupTunnels fixture.host (fixture.manager fixture.store)
    fixture.three_sessions
  = (Some (Some (wrapError "failed to kill tunnel process: "
                   (errorString "operation not permitted"))),
     log [ProcessKill 1%Z; ProcessKill 2%Z] fixture.three_sessions)
  /\ killed (calls (snd (tunnel.CleanupTunnels fixture.host
                           (fixture.manager fixture.store)
                           fixture.three_sessions)))
     = [1%Z; 2%Z].
Proof.
  assert (Hrun : tunnel.CleanupTunnels fixture.host (fixture.manager fixture.store)
                   fixture.three_sessions
                 = (Some (Some (wrapError "failed to kill tunnel process: "
                                  (errorString "operation not permitted"))),
                    log [ProcessKill 1%Z; ProcessKill 2%Z] fixture.three_sessions)).
  { unfold tunnel.CleanupTunnels, bind, get_tunnels.
    apply (Range_kill_stops fixture.host [("a", fixture.session 1)]
             [("c", fixture.session 3)] "b" (fixture.session 2)).
    - by repeat constructor.
    - reflexivity. }
  split; [exact Hrun | by rewrite Hrun].
Qed.

(** * Further properties of the code *)

(** ** The port allocator, read backwards *)

Section AllocatorSound.

Context (os : OS).

Lemma findAvailablePort_loop_some (fuel : nat) :
  forall (port end_ P : Z) (w : World),
    (end_ < max_int)%Z ->
    fst (tunnel.findAvailablePort_loop os fuel port end_ w) = Some (Some P) ->
    (port <= P <= end_)%Z /\ net_Listen os P = true
    /\ forall q, (port <= q < P)%Z -> net_Listen os q = false.
Proof.
  induction fuel as [|fuel IH]; intros port end_ P w Hend;
    cbn [tunnel.findAvailablePort_loop];
    (destruct (Z.leb_spec port end_); [|done]); [done|].
  unfold bind, tunnel.isPortAvailable, call.
  destruct (net_Listen os port) eqn:Hl.
  - simpl. intros [= <-]. split_and!; [lia|lia|done|]. intros q Hq. lia.
  - rewrite int_succ_below by lia. intros Hrec.
    apply IH in Hrec as (HP & Hfree & Hbusy); [|done].
    split_and!; [lia|lia|done|].
    intros q Hq. destruct (decide (q = port)) as [->|]; [done|]. apply Hbusy. lia.
Qed.

Lemma findAvailablePort_loop_fallthrough (fuel : nat) :
  forall (port end_ : Z) (w : World),
    (end_ < max_int)%Z ->
    fst (tunnel.findAvailablePort_loop os fuel port end_ w) = Some None ->
    forall q, (port <= q <= end_)%Z -> net_Listen os q = false.
Proof.
  induction fuel as [|fuel IH]; intros port end_ w Hend;
    cbn [tunnel.findAvailablePort_loop];
    (destruct (Z.leb_spec port end_); [|intros _ q Hq; lia]); [done|].
  unfold bind, tunnel.isPortAvailable, call.
  destruct (net_Listen os port) eqn:Hl; [done|].
  rewrite int_succ_below by lia. intros Hrec q Hq.
  destruct (decide (q = port)) as [->|]; [done|].
  eapply IH; [done|exact Hrec|lia].
Qed.

(** What the outcome of the scan says about the ports, below the
    largest [int]. *)
Lemma findAvailablePort_inversion (start end_ : Z) (w : World) :
  (end_ < max_int)%Z ->
  (forall P,
      fst (tunnel.findAvailablePort os start end_ w) = Some (ok P) ->
      (start <= P <= end_)%Z /\ net_Listen os P = true
      /\ forall q, (start <= q < P)%Z -> net_Listen os q = false)
  /\
  (forall e,
      fst (tunnel.findAvailablePort os start end_ w) = Some (err e) ->
      forall q, (start <= q <= end_)%Z -> net_Listen os q = false).
Proof.
  intros Hend. unfold tunnel.findAvailablePort, bind.
  pose proof (fun P => findAvailablePort_loop_some
                (Z.to_nat (end_ - start + 1)) start end_ P w Hend) as Hsome.
  pose proof (findAvailablePort_loop_fallthrough
                (Z.to_nat (end_ - start + 1)) start end_ w Hend) as Hnone.
  destruct (tunnel.findAvailablePort_loop os _ start end_ w) as [[[port|]|] w'];
    simpl in *; split; intros ? [=]; subst.
  - by apply Hsome.
  - by apply Hnone.
Qed.

(** X1. Below the largest [int], a port the scan returns lies in the
    range, could be bound when probed, and every port of the range
    before it could not; and the scan fails only when no port of the
    range could be bound. *)
Theorem findAvailablePort_sound (start end_ : Z) (w : World) :
  (end_ < max_int)%Z ->
  (forall P,
      fst (tunnel.findAvailablePort os start end_ w) = Some (ok P) ->
      (start <= P <= end_)%Z /\ net_Listen os P = true
      /\ forall q, (start <= q < P)%Z -> net_Listen os q = false)
  /\
  (forall e,
      fst (tunnel.findAvailablePort os start end_ w) = Some (err e) ->
      forall q, (start <= q <= end_)%Z -> net_Listen os q = false).
Proof. apply findAvailablePort_inversion. Qed.

(** X2. On an empty range (the end below the start) the scan fails at
    once: no port is probed, whatever the two bounds are. *)
Theorem findAvailablePort_empty_range (start end_ : Z) (w : World) :
  (end_ < start)%Z ->
  tunnel.findAvailablePort os start end_ w
  = (Some (err (errorString ("no available ports in range "
                             +:+ fmt_d start +:+ "-" +:+ fmt_d end_))),
     w).
Proof.
  intros Hempty. unfold tunnel.findAvailablePort, bind.
  destruct (Z.to_nat (end_ - start + 1)); cbn [tunnel.findAvailablePort_loop];
    by destruct (Z.leb_spec start end_); [lia|].
Qed.

End AllocatorSound.

Lemma findAvailablePort_sound_witness :
  (5000 <= 5002 <= 5009)%Z /\ net_Listen fixture.host 5002 = true
  /\ forall q, (5000 <= q < 5002)%Z -> net_Listen fixture.host q = false.
Proof.
  apply (proj1 (findAvailablePort_sound fixture.host 5000 5009 fixture.initial
                  ltac:(reflexivity)) 5002%Z).
  vm_compute. reflexivity.
Defined.

Lemma findAvailablePort_empty_range_witness :
  tunnel.findAvailablePort fixture.host 5009 5000 fixture.initial
  = (Some (err (errorString "no available ports in range 5009-5000")),
     fixture.initial).
Proof.
  apply (findAvailablePort_empty_range fixture.host 5009 5000 fixture.initial).
  reflexivity.
Defined.

(** ** The batch fetch *)

Section BatchFetch.

Context (c : aws.Client) (paths : list string).

(** What the store answered to one batch, nothing when it failed. *)
Let answer (batch : list string) : list ssmtypes.Param :=
  match aws.SSM_GetParameters c batch with
  | ok found => found
  | err _ => []
  end.

Lemma GetParametersByPath_loop_batches (fuel : nat) :
  forall (i : nat) (parameters : list ssmtypes.Param) (w : World),
    length paths <= i + 10 * fuel ->
    exists batches,
      snd (aws.GetParametersByPath_loop c paths fuel i parameters w)
      = log (map SSMGetParameters batches) w
      /\ Forall (fun batch => 0 < length batch <= 10) batches
      /\ (exists rest, drop i paths = concat batches ++ rest)
      /\ forall ps,
          fst (aws.GetParametersByPath_loop c paths fuel i parameters w)
          = Some (ok ps) ->
          concat batches = drop i paths
          /\ ps = parameters ++ concat (map answer batches).
Proof.
  induction fuel as [|fuel IH]; intros i parameters w Hfuel;
    cbn [aws.GetParametersByPath_loop];
    (destruct (Nat.ltb_spec i (length paths)) as [Hi|Hi];
     [|exists []; rewrite log_nil, drop_ge by done; simpl;
       split_and!; [done|done|by exists []|];
       intros ps [= <-]; by rewrite app_nil_r]); [lia|].
  set (l := drop i paths).
  assert (Hl : length l = length paths - i) by apply length_drop.
  assert (Hbatch :
    take ((if length paths <? i + aws.batchSize
           then length paths else i + aws.batchSize) - i) l = take 10 l).
  { unfold aws.batchSize.
    destruct (Nat.ltb_spec (length paths) (i + 10)).
    - rewrite !take_ge by lia. done.
    - f_equal. lia. }
  rewrite Hbatch. unfold bind, call.
  assert (Hlen : 0 < length (take 10 l) <= 10) by (rewrite length_take; lia).
  destruct (aws.SSM_GetParameters c (take 10 l)) as [found|e] eqn:Hanswer.
  - destruct (IH (i + aws.batchSize) (parameters ++ found)
                (log [SSMGetParameters (take 10 l)] w))
      as (batches & Hw & Hall & [rest Hrest] & Hok);
      [unfold aws.batchSize; lia|].
    unfold aws.batchSize in *.
    assert (Hdrop : drop (i + 10) paths = drop 10 l) by (unfold l; by rewrite drop_drop).
    exists (take 10 l :: batches). rewrite Hw, log_log. split_and!.
    + done.
    + by constructor.
    + exists rest. simpl. rewrite <- app_assoc, <- Hrest, Hdrop. by rewrite take_drop.
    + intros ps Hps. apply Hok in Hps as [Hcat ->]. split.
      * simpl. rewrite Hcat, Hdrop. by rewrite take_drop.
      * simpl. unfold answer at 2. rewrite Hanswer. by rewrite app_assoc.
  - exists [take 10 l]. split_and!.
    + done.
    + constructor; [done|constructor].
    + exists (drop 10 l). simpl. by rewrite app_nil_r, take_drop.
    + by intros ps [=].
Qed.

(** The requests of a batch fetch and what they add up to. *)
Lemma GetParametersByPath_inversion (w : World) :
  exists batches,
    snd (aws.GetParametersByPath c paths w) = log (map SSMGetParameters batches) w
    /\ Forall (fun batch => 0 < length batch <= 10) batches
    /\ (exists rest, paths = concat batches ++ rest)
    /\ forall ps,
        fst (aws.GetParametersByPath c paths w) = Some (ok ps) ->
        concat batches = paths
        /\ ps = concat (map (fun batch =>
                               match aws.SSM_GetParameters c batch with
                               | ok found => found
                               | err _ => []
                               end) batches)
        /\ ps <> [].
Proof.
  destruct (GetParametersByPath_loop_batches (length paths) 0 [] w)
    as (batches & Hw & Hall & Hrest & Hok); [lia|].
  exists batches. unfold aws.GetParametersByPath, bind.
  destruct (aws.GetParametersByPath_loop c paths (length paths) 0 [] w)
    as [[[parameters|e]|] w']; simpl in Hw, Hok; subst w'.
  - destruct (Nat.eqb_spec (length parameters) 0) as [Hzero|Hzero]; simpl;
      (split_and!; [done|done|done|]); [by intros ps [=]|].
    intros ps [= <-]. destruct (Hok parameters eq_refl) as [Hcat Hps].
    split_and!; [done|done|]. by destruct parameters.
  - simpl. split_and!; [done|done|done|]. by intros ps [=].
  - simpl. split_and!; [done|done|done|]. by intros ps [=].
Qed.

(** One round of the batch loop, at the [j]-th batch of ten. *)
Lemma GetParametersByPath_loop_step (fuel j : nat)
    (parameters : list ssmtypes.Param) (w : World) :
  10 * j < length paths ->
  aws.GetParametersByPath_loop c paths (S fuel) (10 * j) parameters w
  = match aws.SSM_GetParameters c (take 10 (drop (10 * j) paths)) with
    | ok found =>
        aws.GetParametersByPath_loop c paths fuel (10 * S j) (parameters ++ found)
          (log [SSMGetParameters (take 10 (drop (10 * j) paths))] w)
    | err e =>
        (Some (err (wrapError "failed to get parameters: " e)),
         log [SSMGetParameters (take 10 (drop (10 * j) paths))] w)
    end.
Proof.
  intros Hj. cbn [aws.GetParametersByPath_loop].
  destruct (Nat.ltb_spec (10 * j) (length paths)) as [_|]; [|lia].
  set (l := drop (10 * j) paths).
  assert (Hl : length l = length paths - 10 * j) by apply length_drop.
  assert (Hbatch :
    take ((if length paths <? 10 * j + aws.batchSize
           then length paths else 10 * j + aws.batchSize) - 10 * j) l = take 10 l).
  { unfold aws.batchSize.
    destruct (Nat.ltb_spec (length paths) (10 * j + 10)).
    - rewrite !take_ge by lia. done.
    - f_equal. lia. }
  rewrite Hbatch. unfold bind, call, ret, aws.batchSize.
  destruct (aws.SSM_GetParameters c (take 10 l)); [|done].
  by replace (10 * j + 10) with (10 * S j) by lia.
Qed.

(** The batch loop from the [j]-th batch on, when the next batches
    are answered with [founds]. *)
Lemma GetParametersByPath_loop_exact (founds : list (list ssmtypes.Param)) :
  forall (fuel j : nat) (parameters : list ssmtypes.Param) (w : World),
    length paths <= 10 * j + 10 * fuel ->
    (forall k found,
        founds !! k = Some found ->
        aws.SSM_GetParameters c (take 10 (drop (10 * (j + k)) paths)) = ok found) ->
    (length paths <= 10 * (j + length founds) < length paths + 10 ->
     aws.GetParametersByPath_loop c paths fuel (10 * j) parameters w
     = (Some (ok (parameters ++ concat founds)),
        log (map (fun k => SSMGetParameters (take 10 (drop (10 * k) paths)))
               (seq j (length founds))) w))
    /\ (forall e,
           10 * (j + length founds) < length paths ->
           aws.SSM_GetParameters c (take 10 (drop (10 * (j + length founds)) paths))
           = err e ->
           aws.GetParametersByPath_loop c paths fuel (10 * j) parameters w
           = (Some (err (wrapError "failed to get parameters: " e)),
              log (map (fun k => SSMGetParameters (take 10 (drop (10 * k) paths)))
                     (seq j (S (length founds)))) w)).
Proof.
  induction founds as [|found founds IH]; intros fuel j parameters w Hfuel Hfounds.
  - cbn [length]. rewrite Nat.add_0_r. split.
    + intros Hend. rewrite app_nil_r, log_nil.
      destruct fuel; cbn [aws.GetParametersByPath_loop];
        by destruct (Nat.ltb_spec (10 * j) (length paths)) as [|_]; [lia|].
    + intros e Hj He. destruct fuel as [|fuel]; [lia|].
      by rewrite GetParametersByPath_loop_step, He.
  - assert (Hhead : aws.SSM_GetParameters c (take 10 (drop (10 * j) paths)) = ok found).
    { specialize (Hfounds 0 found eq_refl). by rewrite Nat.add_0_r in Hfounds. }
    cbn [length].
    destruct (IH (fuel - 1) (S j) (parameters ++ found)
                (log [SSMGetParameters (take 10 (drop (10 * j) paths))] w))
      as [Hdone Hfail]; [lia| |].
    { intros k found' Hk. specialize (Hfounds (S k) found' Hk).
      by replace (S j + k) with (j + S k) by lia. }
    replace (S j + length founds) with (j + S (length founds)) in * by lia.
    split.
    + intros Hend. destruct fuel as [|fuel]; [lia|].
      rewrite GetParametersByPath_loop_step, Hhead by lia.
      replace (S fuel - 1) with fuel in Hdone by lia.
      rewrite Hdone by lia. cbn [concat seq map].
      by rewrite log_log, app_assoc.
    + intros e Hj He. destruct fuel as [|fuel]; [lia|].
      rewrite GetParametersByPath_loop_step, Hhead by lia.
      replace (S fuel - 1) with fuel in Hfail by lia.
      rewrite (Hfail e) by (done || lia).
      by rewrite log_log.
Qed.

(** X3. The batch fetch asks the store for the paths ten at a time, in
    order: its requests are exactly the batches up to and including
    the first one the store refuses, and it makes no other outside
    call.  When the store answers every batch, the fetch returns the
    answers put end to end, or the error [no parameters found] when
    they are all empty; when the store refuses a batch, the fetch
    returns that error, wrapped, and asks for no later batch. *)
Theorem GetParametersByPath_batches (w : World)
    (founds : list (list ssmtypes.Param)) :
  let batch (k : nat) : list string := take 10 (drop (10 * k) paths) in
  let requests (n : nat) : list Call :=
    map (fun k => SSMGetParameters (batch k)) (seq 0 n) in
  (forall k found,
      founds !! k = Some found -> aws.SSM_GetParameters c (batch k) = ok found) ->
  (length paths <= 10 * length founds < length paths + 10 ->
   aws.GetParametersByPath c paths w
   = (Some (if length (concat founds) =? 0
            then err (errorString "no parameters found")
            else ok (concat founds)),
      log (requests (length founds)) w))
  /\ (forall e,
         10 * length founds < length paths ->
         aws.SSM_GetParameters c (batch (length founds)) = err e ->
         aws.GetParametersByPath c paths w
         = (Some (err (wrapError "failed to get parameters: " e)),
            log (requests (S (length founds))) w)).
Proof.
  intros batch requests Hfounds. subst batch requests. cbv beta.
  destruct (GetParametersByPath_loop_exact founds (length paths) 0 [] w)
    as [Hdone Hfail]; [lia|done|].
  cbn [Nat.add Nat.mul app] in Hdone, Hfail.
  unfold aws.GetParametersByPath, bind. split.
  - intros Hend. rewrite Hdone by done. unfold ret.
    by destruct (length (concat founds) =? 0).
  - intros e Hj He. by rewrite (Hfail e).
Qed.

End BatchFetch.

Lemma GetParametersByPath_batches_witness :
  aws.GetParametersByPath fixture.store fixture.twelve_paths fixture.initial
  = (Some (ok (fixture.found
                 ["/prod/db/host"; "/prod/db/port";
                  "/prod/db/user"; "/prod/replica/host"])),
     log [SSMGetParameters (take 10 fixture.twelve_paths);
          SSMGetParameters ["/prod/db/user"; "/prod/replica/host"]]
       fixture.initial)
  /\ aws.GetParametersByPath fixture.store_user_denied fixture.twelve_paths
       fixture.initial
     = (Some (err (wrapError "failed to get parameters: "
                     (errorString "AccessDeniedException"))),
        log [SSMGetParameters (take 10 fixture.twelve_paths);
             SSMGetParameters ["/prod/db/user"; "/prod/replica/host"]]
          fixture.initial).
Proof.
  split.
  - pose proof (GetParametersByPath_batches fixture.store fixture.twelve_paths
                  fixture.initial
                  [fixture.found (take 10 fixture.twelve_paths);
                   fixture.found ["/prod/db/user"; "/prod/replica/host"]])
      as H.
    cbv zeta in H.
    destruct H as [H _].
    + intros [|[|k]] found [= <-]; reflexivity.
    + apply H. vm_compute. lia.
  - pose proof (GetParametersByPath_batches fixture.store_user_denied
                  fixture.twelve_paths fixture.initial
                  [fixture.found (take 10 fixture.twelve_paths)])
      as H.
    cbv zeta in H.
    destruct H as [_ H].
    + intros [|k] found [= <-]. reflexivity.
    + apply (H (errorString "AccessDeniedException")).
      * vm_compute. lia.
      * reflexivity.
Defined.

(** ** The jumphost selector *)

Lemma elem_of_running_instances (instance : types.Instance)
    (reservations : list types.Reservation) :
  instance ∈ aws.running_instances reservations
  <-> aws.is_running instance = true
      /\ exists r, r ∈ reservations /\ instance ∈ r.
Proof.
  unfold aws.running_instances.
  induction reservations as [|r0 reservations IH]; simpl.
  - split; [by intros ?%elem_of_nil | by intros (_ & r & ?%elem_of_nil & _)].
  - rewrite elem_of_app, IH, list_elem_of_filter. split.
    + intros [[Hrun Hin]|(Hrun & r & Hr & Hin)]; (split; [done|]).
      * exists r0. split; [by left | done].
      * exists r. split; [by right | done].
    + intros (Hrun & r & Hr & Hin).
      apply elem_of_cons in Hr as [->|Hr]; [by left | right; eauto].
Qed.

(** What a returned instance says about the provider's answer. *)
Lemma GetJumphost_inversion (os : OS) (c : aws.Client) (env filter : string)
    (w : World) (instance : types.Instance) :
  fst (aws.GetJumphost os c env filter w) = Some (ok instance) ->
  types.State instance = Some types.InstanceStateNameRunning
  /\ exists reservations r,
      aws.EC2_DescribeInstances c
        [ {| types.Name := "tag:Name";
             types.Values := [strings.ReplaceAll filter PLACEHOLDER env] |};
          {| types.Name := "instance-state-name"; types.Values := ["running"] |} ]
      = ok reservations
      /\ r ∈ reservations /\ instance ∈ r.
Proof.
  unfold aws.GetJumphost, bind, call, aws.jumphost_filters.
  destruct (aws.EC2_DescribeInstances c _) as [reservations|e] eqn:Hanswer; [|done].
  destruct (length (aws.running_instances reservations) =? 0); [done|].
  destruct (aws.running_instances reservations !! _) as [chosen|] eqn:Hpick; [|done].
  simpl. intros [= ->].
  apply list_elem_of_lookup_2, elem_of_running_instances in Hpick
    as (Hrun & r & Hr & Hin).
  split.
  - unfold aws.is_running in Hrun.
    destruct (types.State instance) as [[]|]; done.
  - by exists reservations, r.
Qed.

(** X4. An instance the selector returns is one of the instances the
    provider listed for the two filters (name tag equal to the
    substituted filter, state running), and its own state is running:
    an instance listed without a state, or in another state, is never
    chosen. *)
Theorem GetJumphost_picks_running (os : OS) (c : aws.Client) (env filter : string)
    (w : World) (instance : types.Instance) :
  fst (aws.GetJumphost os c env filter w) = Some (ok instance) ->
  types.State instance = Some types.InstanceStateNameRunning
  /\ exists reservations r,
      aws.EC2_DescribeInstances c
        [ {| types.Name := "tag:Name";
             types.Values := [strings.ReplaceAll filter PLACEHOLDER env] |};
          {| types.Name := "instance-state-name"; types.Values := ["running"] |} ]
      = ok reservations
      /\ r ∈ reservations /\ instance ∈ r.
Proof. apply GetJumphost_inversion. Qed.

Lemma GetJumphost_picks_running_witness :
  types.State fixture.bastion = Some types.InstanceStateNameRunning
  /\ exists reservations r,
      aws.EC2_DescribeInstances fixture.store
        [ {| types.Name := "tag:Name";
             types.Values :=
               [strings.ReplaceAll "${PLACEHOLDER}-ecs-autoscaled" PLACEHOLDER "prod"] |};
          {| types.Name := "instance-state-name"; types.Values := ["running"] |} ]
      = ok reservations
      /\ r ∈ reservations /\ fixture.bastion ∈ r.
Proof.
  apply (GetJumphost_picks_running fixture.host fixture.store "prod"
           "${PLACEHOLDER}-ecs-autoscaled" fixture.initial fixture.bastion).
  vm_compute. reflexivity.
Defined.

(** ** The detail query, further *)

Section DetailsFurther.

Context (m : tunnel.Manager) (serviceName : string)
        (serviceConfig : config.ServiceConfig).

(** Resolving a value through the AWS client makes no outside call or
    one parameter read. *)
Lemma GetValue_calls (cv : config.ConfigValue) (c : aws.Client) (E : string) (w : World) :
  snd (config.GetValue cv c E w) = w
  \/ exists name, snd (config.GetValue cv c E w) = log [SSMGetParameter name true] w.
Proof.
  unfold config.GetValue.
  destruct (negb (String.eqb (config.SSMParam cv) "")) eqn:Hp;
    destruct (negb (String.eqb (config.Value cv) "")) eqn:Hv; simpl;
    try by left.
  right. eexists.
  unfold config.GetParameter, aws.Client_SSMClient, aws.GetParameter,
    aws.GetParameterValue, bind, call.
  by destruct (aws.SSM_GetParameter c _ true) as [[v|]|e].
Qed.

Lemma GetValue_ssm_log (cv : config.ConfigValue) (c : aws.Client) (E : string) (w : World) :
  exists cs, snd (config.GetValue cv c E w) = log cs w
             /\ Forall (fun x => is_ssm x = true) cs
             /\ forall names, SSMGetParameters names ∉ cs.
Proof.
  destruct (GetValue_calls cv c E w) as [->|[name ->]].
  - exists []. rewrite log_nil. split_and!; [done|constructor|].
    by intros names ?%elem_of_nil.
  - exists [SSMGetParameter name true]. split_and!; [done|by repeat constructor|].
    intros names Hin. apply list_elem_of_singleton in Hin. discriminate.
Qed.

(** X5. The detail query only talks to the parameter store: it leaves
    the registry and the cached jumphost as they are, and probes no
    port, starts and kills no process, queries no instance.  And it
    sends a batch request only after both the host and the remote
    port resolved, for a service with detail paths. *)
Theorem GetServiceDetails_read_only (w : World) :
  exists cs,
    snd (tunnel.GetServiceDetails m serviceName serviceConfig w) = log cs w
    /\ Forall (fun x => is_ssm x = true) cs
    /\ forall names,
        SSMGetParameters names ∈ cs ->
        config.ServiceDetails serviceConfig <> []
        /\ (exists host,
               fst (config.GetValue (config.Host serviceConfig)
                      (tunnel.client m) (tunnel.env m) w) = Some (ok host))
        /\ (exists remotePort,
               fst (config.GetValue (config.RemotePort serviceConfig)
                      (tunnel.client m) (tunnel.env m)
                      (snd (config.GetValue (config.Host serviceConfig)
                              (tunnel.client m) (tunnel.env m) w)))
               = Some (ok remotePort)).
Proof.
  unfold tunnel.GetServiceDetails, orErr, bind.
  destruct (GetValue_ssm_log (config.Host serviceConfig) (tunnel.client m)
              (tunnel.env m) w) as (cs1 & Hw1 & Hcs1 & Hno1).
  destruct (config.GetValue (config.Host serviceConfig) _ _ w) as [[[host|e]|] w1];
    simpl in Hw1; subst w1;
    [|by exists cs1; split_and!; [done|done|intros names ?%Hno1]..].
  destruct (GetValue_ssm_log (config.RemotePort serviceConfig) (tunnel.client m)
              (tunnel.env m) (log cs1 w)) as (cs2 & Hw2 & Hcs2 & Hno2).
  simpl.
  destruct (config.GetValue (config.RemotePort serviceConfig) _ _ (log cs1 w))
    as [[[remotePort|e]|] w2];
    simpl in Hw2; subst w2; rewrite log_log;
    [|by exists (cs1 ++ cs2); split_and!;
         [done|apply Forall_app|
          intros names [?%Hno1|?%Hno2]%elem_of_app]..].
  destruct (config.ServiceDetails serviceConfig) as [|path paths] eqn:Hpaths.
  { exists (cs1 ++ cs2). split_and!; [done|by apply Forall_app|].
    by intros names [?%Hno1|?%Hno2]%elem_of_app. }
  cbn [length Nat.ltb Nat.leb]. cbv beta iota.
  match goal with |- context [aws.GetParametersByPath ?c ?ps ?w0] =>
    destruct (GetParametersByPath_inversion c ps w0) as (batches & Hw3 & _);
    destruct (aws.GetParametersByPath c ps w0) as [[[parameters|e]|] w3]
  end; simpl in Hw3; subst w3; rewrite log_log;
    exists ((cs1 ++ cs2) ++ map SSMGetParameters batches);
    (split_and!;
     [done
     |rewrite !Forall_app; split_and!; [done|done|];
      apply Forall_forall; by intros ? (? & -> & _)%list_elem_of_fmap
     |intros names _; split_and!; [done|by exists host|by exists remotePort]]).
Qed.

(** Once the resolved entries are in, the keys of the map are those
    and the last segments of the fetched parameters that have a name
    and a value. *)
Lemma dom_add_parameters (parameters : list ssmtypes.Param) :
  forall details : gmap string string,
    dom (tunnel.add_parameters details parameters)
    = dom details
      ∪ list_to_set
          (omap (fun p => match ssmtypes.Name p, ssmtypes.Value p with
                          | Some name, Some _ => Some (tunnel.last_segment name)
                          | _, _ => None
                          end) parameters).
Proof.
  unfold tunnel.add_parameters.
  induction parameters as [|p parameters IH]; intros details; simpl.
  - set_solver.
  - rewrite IH.
    destruct (ssmtypes.Name p) as [name|]; [|set_solver].
    destruct (ssmtypes.Value p) as [value|]; [|set_solver].
    rewrite dom_insert_L. simpl. set_solver.
Qed.

(** X6. For a service without detail paths whose host and remote port
    resolve, the query returns the map with exactly the three keys
    [host], [remote_port] and [local_port_range], the last one holding
    the bounds of the range joined by a dash; the world is the one the
    two resolutions left, so no batch request was made. *)
Theorem GetServiceDetails_without_paths
    (host remotePort : string) (w w1 w2 : World) :
  config.GetValue (config.Host serviceConfig) (tunnel.client m) (tunnel.env m) w
  = (Some (ok host), w1) ->
  config.GetValue (config.RemotePort serviceConfig) (tunnel.client m) (tunnel.env m) w1
  = (Some (ok remotePort), w2) ->
  config.ServiceDetails serviceConfig = [] ->
  exists details,
    tunnel.GetServiceDetails m serviceName serviceConfig w = (Some (ok details), w2)
    /\ dom details = ({["host"; "remote_port"; "local_port_range"]} : gset string)
    /\ details !! "host" = Some host
    /\ details !! "remote_port" = Some remotePort
    /\ details !! "local_port_range"
       = Some (fmt_d (config.Start (config.LocalPortRange serviceConfig))
               +:+ "-" +:+
               fmt_d (config.End_ (config.LocalPortRange serviceConfig))).
Proof.
  intros Hhost Hport Hpaths.
  unfold tunnel.GetServiceDetails, orErr, bind. rewrite Hhost, Hport, Hpaths. simpl.
  unfold ret. eexists. split; [reflexivity|]. split_and!.
  - rewrite !dom_insert_L, dom_empty_L. set_solver.
  - do 2 (rewrite lookup_insert_ne by done). by rewrite lookup_insert_eq.
  - rewrite lookup_insert_ne by done. by rewrite lookup_insert_eq.
  - by rewrite lookup_insert_eq.
Qed.

(** X7. When the batch fetch answers, the keys of the returned map
    are the three fixed keys and, for each fetched parameter that
    carries both a name and a value, the last of the slash-separated
    segments of its name (parameters without a name or a value are
    skipped); and the port-range entry always holds the configured
    bounds, also when a fetched parameter was filed under that key. *)
Theorem GetServiceDetails_keys
    (host remotePort : string) (parameters : list ssmtypes.Param)
    (w w1 w2 w3 : World) :
  config.GetValue (config.Host serviceConfig) (tunnel.client m) (tunnel.env m) w
  = (Some (ok host), w1) ->
  config.GetValue (config.RemotePort serviceConfig) (tunnel.client m) (tunnel.env m) w1
  = (Some (ok remotePort), w2) ->
  config.ServiceDetails serviceConfig <> [] ->
  aws.GetParametersByPath (tunnel.client m)
    (map (fun path => strings.ReplaceAll path PLACEHOLDER (tunnel.env m))
         (config.ServiceDetails serviceConfig)) w2
  = (Some (ok parameters), w3) ->
  exists details,
    tunnel.GetServiceDetails m serviceName serviceConfig w = (Some (ok details), w3)
    /\ (forall key,
           is_Some (details !! key)
           <-> key = "host" \/ key = "remote_port" \/ key = "local_port_range"
               \/ exists p name value,
                   p ∈ parameters
                   /\ ssmtypes.Name p = Some name
                   /\ ssmtypes.Value p = Some value
                   /\ is_last_segment key name)
    /\ details !! "local_port_range"
       = Some (fmt_d (config.Start (config.LocalPortRange serviceConfig))
               +:+ "-" +:+
               fmt_d (config.End_ (config.LocalPortRange serviceConfig))).
Proof.
  intros Hhost Hport Hpaths Hfetch.
  unfold tunnel.GetServiceDetails, orErr, bind. rewrite Hhost, Hport.
  destruct (config.ServiceDetails serviceConfig) as [|path paths]; [done|].
  cbn [length Nat.ltb Nat.leb]. cbv beta iota.
  rewrite Hfetch. unfold ret. eexists. split; [reflexivity|]. split.
  - intros key. rewrite <- elem_of_dom.
    rewrite dom_insert_L, dom_add_parameters, !dom_insert_L, dom_empty_L.
    rewrite !elem_of_union, !elem_of_singleton, elem_of_list_to_set,
      list_elem_of_omap.
    split.
    + intros [->|[[->|[->|[]%elem_of_empty]]|(p & Hp & Hkey)]]; eauto.
      destruct (ssmtypes.Name p) as [name|] eqn:Hname; [|done].
      destruct (ssmtypes.Value p) as [value|] eqn:Hvalue; [|done].
      injection Hkey as Hkey. apply last_segment_iff in Hkey.
      right. right. right. by exists p, name, value.
    + intros [->|[->|[->|(p & name & value & Hp & Hname & Hvalue & Hkey)]]]; eauto.
      right. right. exists p. split; [done|].
      rewrite Hname, Hvalue. f_equal. by apply last_segment_iff.
  - by rewrite lookup_insert_eq.
Qed.

End DetailsFurther.

(** ** The key of a fetched parameter *)

(** X8. The key a parameter is filed under is what follows the last
    slash of its name: a name without a slash is its own key, and a
    name that ends in a slash and then a slash-free [b] has key [b]
    (so a name ending in a slash has the empty key). *)
Theorem last_segment_after_last_slash (a b : string) :
  String.index 0 "/" b = None ->
  tunnel.last_segment b = b
  /\ tunnel.last_segment (a +:+ "/" +:+ b) = b.
Proof.
  intros Hb. unfold tunnel.last_segment. split.
  - by rewrite Split_no_slash.
  - destruct (Split_after_slash a b) as (seg & x & rest & -> & Hlast).
    rewrite Split_no_slash in Hlast by done.
    cbn [length Nat.ltb Nat.leb]. change (last (seg :: x :: rest)) with (last (x :: rest)).
    by rewrite Hlast.
Qed.

Lemma last_segment_after_last_slash_witness :
  tunnel.last_segment "host" = "host"
  /\ tunnel.last_segment ("/prod/replica" +:+ "/" +:+ "host") = "host".
Proof.
  apply (last_segment_after_last_slash "/prod/replica" "host"). reflexivity.
Defined.

(** ** One tunnel, from any world *)

Section OneTunnel.

Context (os : OS).

(** What a resolution through the AWS client returns does not depend
    on the world it runs in, only on the store. *)
Lemma GetValue_fst (cv : config.ConfigValue) (c : aws.Client) (E : string)
    (w w' : World) :
  fst (config.GetValue cv c E w) = fst (config.GetValue cv c E w').
Proof.
  unfold config.GetValue.
  destruct (negb (String.eqb (config.SSMParam cv) ""));
    destruct (negb (String.eqb (config.Value cv) "")); simpl; try done.
  unfold config.GetParameter, aws.Client_SSMClient, aws.GetParameter,
    aws.GetParameterValue, bind, call.
  by destruct (aws.SSM_GetParameter c _ true) as [[v|]|e].
Qed.

Lemma findAvailablePort_loop_fst (fuel : nat) :
  forall (port end_ : Z) (w w' : World),
    fst (tunnel.findAvailablePort_loop os fuel port end_ w)
    = fst (tunnel.findAvailablePort_loop os fuel port end_ w').
Proof.
  induction fuel as [|fuel IH]; intros port end_ w w';
    cbn [tunnel.findAvailablePort_loop]; (destruct (port <=? end_)%Z; [|done]);
    [done|].
  unfold bind, tunnel.isPortAvailable, call.
  destruct (net_Listen os port); [done | apply IH].
Qed.

(** Nor does what the port scan returns. *)
Lemma findAvailablePort_fst (start end_ : Z) (w w' : World) :
  fst (tunnel.findAvailablePort os start end_ w)
  = fst (tunnel.findAvailablePort os start end_ w').
Proof.
  unfold tunnel.findAvailablePort, bind.
  pose proof (findAvailablePort_loop_fst (Z.to_nat (end_ - start + 1))
                start end_ w w') as H.
  destruct (tunnel.findAvailablePort_loop os _ start end_ w) as [[[p|]|] w1];
    destruct (tunnel.findAvailablePort_loop os _ start end_ w') as [[[p'|]|] w1'];
    simpl in H; by simplify_eq.
Qed.

(** The argument vector of the session for a jumphost, a target and a
    local port. *)
Let argv (jh : types.Instance) (host remotePort : string) (localPort : Z)
  : list string :=
  [ "aws"; "ssm"; "start-session"; "--target"; types.InstanceId jh;
    "--document-name"; "AWS-StartPortForwardingSessionToRemoteHost";
    "--parameters"; tunnel.session_parameters host remotePort localPort ].

(** Everything [CreateTunnel] can do, with or without a cached
    jumphost. *)
Lemma CreateTunnel_outcome (m : tunnel.Manager) (serviceName : string)
    (serviceConfig : config.ServiceConfig) (w : World) :
  let run := tunnel.CreateTunnel os m serviceName serviceConfig w in
  exists cs,
    calls (snd run) = calls w ++ cs
    /\ Forall (fun c => is_kill c = false) cs
    /\ ((fst run <> Some None /\ tunnels (snd run) = tunnels w)
        \/ (fst run = Some None
            /\ exists jh host remotePort localPort pid,
                tunnels (snd run)
                = store serviceName
                    {| exec.Args := argv jh host remotePort localPort;
                       exec.Process := pid |} (tunnels w)
                /\ exec_Start os (argv jh host remotePort localPort) = ok pid
                /\ last cs = Some (ExecStart (argv jh host remotePort localPort))
                /\ jumphost (snd run) = Some jh
                /\ (forall cached, jumphost w = Some cached -> jh = cached)
                /\ (jumphost w = None ->
                    types.State jh = Some types.InstanceStateNameRunning)
                /\ fst (config.GetValue (config.Host serviceConfig)
                          (tunnel.client m) (tunnel.env m) w) = Some (ok host)
                /\ fst (config.GetValue (config.RemotePort serviceConfig)
                          (tunnel.client m) (tunnel.env m) w) = Some (ok remotePort)
                /\ fst (tunnel.findAvailablePort os
                          (config.Start (config.LocalPortRange serviceConfig))
                          (config.End_ (config.LocalPortRange serviceConfig)) w)
                   = Some (ok localPort))).
Proof.
  intros run. subst run. unfold tunnel.CreateTunnel, orFail, bind.
  destruct (GetValue_log (config.Host serviceConfig) (tunnel.client m) (tunnel.env m) w)
    as (cs1 & Hw1 & Hcs1%per_service_not_kill).
  destruct (config.GetValue (config.Host serviceConfig) _ _ w)
    as [[[host|e]|] w1] eqn:Hhost;
    simpl in Hw1; subst w1; [|by exists cs1; split_and!; [done|done|left]..].
  pose proof (GetValue_fst (config.RemotePort serviceConfig) (tunnel.client m)
                (tunnel.env m) w (log cs1 w)) as Hsame.
  destruct (GetValue_log (config.RemotePort serviceConfig) (tunnel.client m)
              (tunnel.env m) (log cs1 w)) as (cs2 & Hw2 & Hcs2%per_service_not_kill).
  destruct (config.GetValue (config.RemotePort serviceConfig) _ _ (log cs1 w))
    as [[[remotePort|e]|] w2];
    simpl in Hw2, Hsame; subst w2; rewrite log_log;
    [|by exists (cs1 ++ cs2); split_and!; [done|apply Forall_app|left]..].
  unfold get_jumphost. rewrite jumphost_log.
  destruct (jumphost w) as [cached|] eqn:Hjh.
  - match goal with |- context [tunnel.findAvailablePort os ?s ?e ?W] =>
      pose proof (findAvailablePort_fst s e w W) as Hport;
      destruct (findAvailablePort_log os s e W)
        as (cs3 & Hw3 & Hcs3%per_service_not_kill);
      destruct (tunnel.findAvailablePort os s e W) as [[[localPort|e0]|] w3]
    end; simpl in Hw3, Hport; subst w3; unfold call, Store, ret;
      [match goal with |- context [exec_Start os ?a] =>
         destruct (exec_Start os a) as [pid|e0] eqn:Hstart
       end|..];
      (eexists; split_and!;
       [simpl; rewrite <- ?app_assoc; reflexivity
       |rewrite !Forall_app; split_and!; first [done | by repeat constructor]
       |]); try by left.
    right. split; [done|]. exists cached, host, remotePort, localPort, pid.
    simpl. rewrite Hjh. split_and!; try done.
    + by repeat (rewrite last_app || rewrite last_cons).
    + by intros ? [= ->].
  - pose proof (GetJumphost_log os m (log (cs1 ++ cs2) w)) as Hw3.
    pose proof (fun i => GetJumphost_inversion os (tunnel.client m) (tunnel.env m)
                  (config.GetJumphostFilter (tunnel.config m) (tunnel.env m))
                  (log (cs1 ++ cs2) w) i) as Hrunning.
    unfold tunnel.GetJumphost in Hw3 |- *.
    destruct (aws.GetJumphost os _ _ _ (log (cs1 ++ cs2) w))
      as [[[instance|e]|] w3]; simpl in Hw3; subst w3; rewrite log_log;
      [|eexists; split_and!;
        [reflexivity
        |rewrite !Forall_app; split_and!; first [done | by repeat constructor]
        |by left]..].
    unfold set_jumphost.
    match goal with |- context [tunnel.findAvailablePort os ?s ?e ?W] =>
      pose proof (findAvailablePort_fst s e w W) as Hport;
      destruct (findAvailablePort_log os s e W)
        as (cs3 & Hw4 & Hcs3%per_service_not_kill);
      destruct (tunnel.findAvailablePort os s e W) as [[[localPort|e0]|] w4]
    end; simpl in Hw4, Hport; subst w4; unfold call, Store, ret;
      [match goal with |- context [exec_Start os ?a] =>
         destruct (exec_Start os a) as [pid|e0] eqn:Hstart
       end|..];
      (eexists; split_and!;
       [simpl; rewrite <- ?app_assoc; reflexivity
       |rewrite !Forall_app; split_and!; first [done | by repeat constructor]
       |]); try by left.
    right. split; [done|]. exists instance, host, remotePort, localPort, pid.
    simpl. split_and!; try done.
    + by repeat (rewrite last_app || rewrite last_cons).
    + intros _. by apply Hrunning.
Qed.

End OneTunnel.

(** X9. A tunnel that [CreateTunnel] reports as created (for a range
    ending below the largest [int]) is in the registry under the
    service's name as the process [aws ssm start-session] was started
    as, aimed at the cached jumphost (the one already cached if there
    was one, else a running instance that is cached now), with the
    resolved host and remote port, and with a local port that lies in
    the configured range, could be bound when probed, and is the
    lowest such port. *)
Theorem CreateTunnel_launches_what_it_resolved (os : OS)
    (m : tunnel.Manager) (serviceName : string)
    (serviceConfig : config.ServiceConfig) (w : World) :
  (config.End_ (config.LocalPortRange serviceConfig) < max_int)%Z ->
  fst (tunnel.CreateTunnel os m serviceName serviceConfig w) = Some None ->
  exists jh host remotePort localPort pid,
    let argv :=
      [ "aws"; "ssm"; "start-session"; "--target"; types.InstanceId jh;
        "--document-name"; "AWS-StartPortForwardingSessionToRemoteHost";
        "--parameters"; tunnel.session_parameters host remotePort localPort ] in
    load serviceName (tunnels (snd (tunnel.CreateTunnel os m serviceName serviceConfig w)))
    = Some {| exec.Args := argv; exec.Process := pid |}
    /\ exec_Start os argv = ok pid
    /\ jumphost (snd (tunnel.CreateTunnel os m serviceName serviceConfig w)) = Some jh
    /\ (forall cached, jumphost w = Some cached -> jh = cached)
    /\ (jumphost w = None -> types.State jh = Some types.InstanceStateNameRunning)
    /\ fst (config.GetValue (config.Host serviceConfig)
              (tunnel.client m) (tunnel.env m) w) = Some (ok host)
    /\ fst (config.GetValue (config.RemotePort serviceConfig)
              (tunnel.client m) (tunnel.env m) w) = Some (ok remotePort)
    /\ (config.Start (config.LocalPortRange serviceConfig) <= localPort
        <= config.End_ (config.LocalPortRange serviceConfig))%Z
    /\ net_Listen os localPort = true
    /\ (forall q,
           (config.Start (config.LocalPortRange serviceConfig) <= q < localPort)%Z ->
           net_Listen os q = false).
Proof.
  intros Hend Hnil.
  destruct (CreateTunnel_outcome os m serviceName serviceConfig w)
    as (cs & _ & _ & [[Hfail _]|(_ & jh & host & remotePort & localPort & pid
                                  & Ht & Hstart & _ & Hj & Hcached & Hrun & Hh & Hp
                                  & Hport)]);
    [done|].
  exists jh, host, remotePort, localPort, pid. cbv zeta.
  destruct (proj1 (findAvailablePort_inversion os _ _ w Hend) localPort Hport)
    as (Hrange & Hfree & Hbusy).
  split_and!; try done; try lia.
  rewrite Ht, load_store. by rewrite String.eqb_refl.
Qed.

Lemma CreateTunnel_launches_what_it_resolved_witness :
  exists jh host remotePort localPort pid,
    let argv :=
      [ "aws"; "ssm"; "start-session"; "--target"; types.InstanceId jh;
        "--document-name"; "AWS-StartPortForwardingSessionToRemoteHost";
        "--parameters"; tunnel.session_parameters host remotePort localPort ] in
    load "database"
      (tunnels (snd (tunnel.CreateTunnel fixture.host (fixture.manager fixture.store)
                       "database" fixture.database fixture.initial)))
    = Some {| exec.Args := argv; exec.Process := pid |}
    /\ exec_Start fixture.host argv = ok pid
    /\ jumphost (snd (tunnel.CreateTunnel fixture.host (fixture.manager fixture.store)
                        "database" fixture.database fixture.initial)) = Some jh
    /\ (forall cached, jumphost fixture.initial = Some cached -> jh = cached)
    /\ (jumphost fixture.initial = None ->
        types.State jh = Some types.InstanceStateNameRunning)
    /\ fst (config.GetValue (config.Host fixture.database)
              fixture.store "prod" fixture.initial) = Some (ok host)
    /\ fst (config.GetValue (config.RemotePort fixture.database)
              fixture.store "prod" fixture.initial) = Some (ok remotePort)
    /\ (5000 <= localPort <= 5009)%Z
    /\ net_Listen fixture.host localPort = true
    /\ (forall q, (5000 <= q < localPort)%Z -> net_Listen fixture.host q = false).
Proof.
  apply (CreateTunnel_launches_what_it_resolved fixture.host
           (fixture.manager fixture.store) "database" fixture.database
           fixture.initial).
  - reflexivity.
  - vm_compute. reflexivity.
Defined.

(** ** The registry under [CreateTunnel] and [CreateTunnels] *)

Section Registry.

Context (os : OS) (m : tunnel.Manager).

Lemma store_length_present (k : string) (v old : exec.Cmd)
    (l : list (string * exec.Cmd)) :
  load k l = Some old -> length (store k v l) = length l.
Proof.
  induction l as [|[k0 v0] l IH]; simpl; [done|].
  destruct (String.eqb k k0); [done|]. intros Hl. simpl. by rewrite IH.
Qed.

Lemma store_keys (k : string) (v : exec.Cmd) (l : list (string * exec.Cmd)) (x : string) :
  x ∈ (store k v l).*1 -> x = k \/ x ∈ l.*1.
Proof.
  induction l as [|[k0 v0] l IH]; simpl.
  - intros ->%list_elem_of_singleton. by left.
  - destruct (String.eqb_spec k k0) as [->|Hne]; simpl.
    + intros [->|?]%elem_of_cons; [by left | right; by right].
    + intros [->|Hx]%elem_of_cons; [right; by left|].
      destruct (IH Hx) as [->|?]; [by left | right; by right].
Qed.

Lemma store_NoDup (k : string) (v : exec.Cmd) (l : list (string * exec.Cmd)) :
  NoDup l.*1 -> NoDup (store k v l).*1.
Proof.
  induction l as [|[k0 v0] l IH]; simpl; [intros _; apply NoDup_singleton|].
  intros [Hk0 Hl]%NoDup_cons.
  destruct (String.eqb_spec k k0) as [->|Hne]; simpl.
  - by constructor.
  - constructor; [|by apply IH].
    intros [->|?]%store_keys; done.
Qed.

(** A property of the registry that [Store] keeps is kept by one
    tunnel ... *)
Lemma CreateTunnel_registry_inv (P : list (string * exec.Cmd) -> Prop)
    (serviceName : string) (serviceConfig : config.ServiceConfig) (w : World) :
  (forall k v l, P l -> P (store k v l)) ->
  P (tunnels w) ->
  P (tunnels (snd (tunnel.CreateTunnel os m serviceName serviceConfig w))).
Proof.
  intros Hstore HP.
  destruct (CreateTunnel_outcome os m serviceName serviceConfig w)
    as (cs & _ & _ & [[_ ->]|(_ & jh & host & remotePort & localPort & pid & -> & _)]);
    [done | by apply Hstore].
Qed.

(** ... by the loop over the services ... *)
Lemma CreateTunnels_loop_registry_inv (P : list (string * exec.Cmd) -> Prop)
    (services : list string) :
  (forall k v l, P l -> P (store k v l)) ->
  forall (lastError : option error) (w : World),
    P (tunnels w) ->
    P (tunnels (snd (tunnel.CreateTunnels_loop os m services lastError w))).
Proof.
  intros Hstore.
  induction services as [|serviceName rest IH]; intros lastError w HP;
    cbn [tunnel.CreateTunnels_loop]; [done|].
  destruct (config.GetServiceConfig _ serviceName) as [serviceConfig|e];
    [|by apply IH].
  unfold bind.
  pose proof (CreateTunnel_registry_inv P serviceName serviceConfig w Hstore HP) as H1.
  destruct (tunnel.CreateTunnel os m serviceName serviceConfig w) as [[[e|]|] w1];
    simpl in H1; [by apply IH | by apply IH | done].
Qed.

(** ... and by a batch. *)
Lemma CreateTunnels_registry_inv (P : list (string * exec.Cmd) -> Prop)
    (services : list string) (w : World) :
  (forall k v l, P l -> P (store k v l)) ->
  P (tunnels w) ->
  P (tunnels (snd (tunnel.CreateTunnels os m services w))).
Proof.
  intros Hstore HP. unfold tunnel.CreateTunnels, orFail, bind.
  pose proof (GetJumphost_log os m w) as Hw.
  destruct (tunnel.GetJumphost os m w) as [[[instance|e]|] w1]; simpl in Hw; subst w1;
    [|done..].
  unfold set_jumphost.
  match goal with |- context [tunnel.CreateTunnels_loop os m services None ?w1] =>
    pose proof (CreateTunnels_loop_registry_inv P services Hstore None w1 HP) as H1;
    destruct (tunnel.CreateTunnels_loop os m services None w1) as [[[e|]|] w2]
  end; done.
Qed.

(** X10. No two entries of the registry share a service name, and
    neither one tunnel nor a batch changes that, whatever fails on the
    way. *)
Theorem CreateTunnels_keeps_names_distinct (services : list string)
    (serviceName : string) (serviceConfig : config.ServiceConfig) (w : World) :
  NoDup (tunnels w).*1 ->
  NoDup (tunnels (snd (tunnel.CreateTunnels os m services w))).*1
  /\ NoDup (tunnels (snd (tunnel.CreateTunnel os m serviceName serviceConfig w))).*1.
Proof.
  intros Hw. split.
  - apply (CreateTunnels_registry_inv (fun l => NoDup l.*1)); [|done].
    intros k v l. apply store_NoDup.
  - apply (CreateTunnel_registry_inv (fun l => NoDup l.*1)); [|done].
    intros k v l. apply store_NoDup.
Qed.

(** X11. Creating a tunnel for a service that already has a session
    replaces the registry entry and asks for no process to be killed:
    the registry keeps its size and its other entries, and the name
    now leads to a session whose start is the last outside call of
    this very run.  Provided the operating system does not hand out
    the process of the old session again, the new session is not the
    old one; and if no other entry led to the old process, no entry
    of the registry leads to it any more, although it was never
    killed. *)
Theorem CreateTunnel_replaces_session
    (serviceName : string) (serviceConfig : config.ServiceConfig)
    (old : exec.Cmd) (w : World) :
  load serviceName (tunnels w) = Some old ->
  fst (tunnel.CreateTunnel os m serviceName serviceConfig w) = Some None ->
  let w' := snd (tunnel.CreateTunnel os m serviceName serviceConfig w) in
  length (tunnels w') = length (tunnels w)
  /\ (forall k, k <> serviceName -> load k (tunnels w') = load k (tunnels w))
  /\ exists cmd cs,
       load serviceName (tunnels w') = Some cmd
       /\ exec_Start os (exec.Args cmd) = ok (exec.Process cmd)
       /\ calls w' = calls w ++ cs
       /\ last cs = Some (ExecStart (exec.Args cmd))
       /\ Forall (fun c => is_kill c = false) cs
       /\ ((forall argv pid, exec_Start os argv = ok pid -> pid <> exec.Process old) ->
           cmd <> old
           /\ ((forall k c,
                   k <> serviceName ->
                   load k (tunnels w) = Some c ->
                   exec.Process c <> exec.Process old) ->
               forall k c,
                 load k (tunnels w') = Some c ->
                 exec.Process c <> exec.Process old)).
Proof.
  intros Hold Hnil w'. subst w'.
  destruct (CreateTunnel_outcome os m serviceName serviceConfig w)
    as (cs & Hcalls & Hcs & [[Hfail _]|(_ & jh & host & remotePort & localPort & pid
                                         & Ht & Hstart & Hlast & _)]);
    [done|].
  rewrite Ht. split_and!.
  - by eapply store_length_present.
  - intros k Hk. rewrite load_store.
    by destruct (String.eqb_spec k serviceName).
  - eexists _, cs. rewrite load_store, String.eqb_refl.
    split_and!; [reflexivity|exact Hstart|done|exact Hlast|done|].
    intros Hfresh. pose proof (Hfresh _ _ Hstart) as Hpid. split.
    + intros <-. by apply Hpid.
    + intros Hothers k c. rewrite load_store.
      destruct (String.eqb_spec k serviceName) as [->|Hk].
      * by intros [= <-].
      * by apply Hothers.
Qed.

End Registry.

Lemma CreateTunnels_keeps_names_distinct_witness :
  NoDup (tunnels (snd (tunnel.CreateTunnels fixture.host (fixture.manager fixture.store)
                         ["database"; "cache"; "database"]
                         fixture.database_running))).*1
  /\ NoDup (tunnels (snd (tunnel.CreateTunnel fixture.host
                            (fixture.manager fixture.store)
                            "database" fixture.database
                            fixture.database_running))).*1.
Proof.
  apply (CreateTunnels_keeps_names_distinct fixture.host (fixture.manager fixture.store)
           ["database"; "cache"; "database"] "database" fixture.database
           fixture.database_running).
  apply NoDup_cons. split.
  - intros Hin. apply list_elem_of_singleton in Hin. discriminate.
  - apply NoDup_singleton.
Defined.

Lemma CreateTunnel_replaces_session_witness :
  let w' := snd (tunnel.CreateTunnel fixture.host (fixture.manager fixture.store)
                   "database" fixture.database fixture.database_running) in
  length (tunnels w') = length (tunnels fixture.database_running)
  /\ (forall k, k <> "database" ->
                load k (tunnels w') = load k (tunnels fixture.database_running))
  /\ exists cmd cs,
       load "database" (tunnels w') = Some cmd
       /\ exec_Start fixture.host (exec.Args cmd) = ok (exec.Process cmd)
       /\ calls w' = calls fixture.database_running ++ cs
       /\ last cs = Some (ExecStart (exec.Args cmd))
       /\ Forall (fun c => is_kill c = false) cs
       /\ cmd <> fixture.session 7
       /\ forall k c,
            load k (tunnels w') = Some c ->
            exec.Process c <> exec.Process (fixture.session 7).
Proof.
  destruct (CreateTunnel_replaces_session fixture.host
              (fixture.manager fixture.store) "database" fixture.database
              (fixture.session 7) fixture.database_running)
    as (Hsize & Hothers & cmd & cs & Hcmd & Hstart & Hcalls & Hlast & Hkill & Hold).
  - reflexivity.
  - vm_compute. reflexivity.
  - split; [exact Hsize|]. split; [exact Hothers|].
    exists cmd, cs.
    destruct Hold as [Hnew Hgone]; [intros argv pid [= <-]; discriminate|].
    repeat (split; [assumption|]).
    apply Hgone. intros k c Hk. cbn [load tunnels fixture.database_running].
    destruct (String.eqb_spec k "cache") as [_|_]; [intros [= <-]; discriminate|].
    destruct (String.eqb_spec k "database") as [->|_]; [done | discriminate].
Defined.

(** ** What a batch reports *)

Section BatchReport.

Context (os : OS) (m : tunnel.Manager).

(** Once a failure is recorded the loop cannot end without one. *)
Lemma CreateTunnels_loop_sticky (services : list string) :
  forall (e : error) (w : World),
    fst (tunnel.CreateTunnels_loop os m services (Some e) w) <> Some None.
Proof.
  induction services as [|serviceName rest IH]; intros e w;
    cbn [tunnel.CreateTunnels_loop]; [done|].
  destruct (config.GetServiceConfig _ serviceName) as [serviceConfig|e'];
    [|by apply IH].
  unfold bind.
  destruct (tunnel.CreateTunnel os m serviceName serviceConfig w) as [[[e'|]|] w1];
    [by apply IH | by apply IH | done].
Qed.

(** The loop over two lists of services one after the other is the
    loop over the first, then the loop over the second from the
    failure the first one left. *)
Lemma CreateTunnels_loop_app (services1 services2 : list string) :
  forall (lastError : option error) (w : World),
    tunnel.CreateTunnels_loop os m (services1 ++ services2) lastError w
    = match tunnel.CreateTunnels_loop os m services1 lastError w with
      | (Some lastError', w1) => tunnel.CreateTunnels_loop os m services2 lastError' w1
      | (None, w1) => (None, w1)
      end.
Proof.
  induction services1 as [|serviceName rest IH]; intros lastError w;
    cbn [tunnel.CreateTunnels_loop app]; [done|].
  destruct (config.GetServiceConfig _ serviceName) as [serviceConfig|e];
    [|by apply IH].
  unfold bind.
  destruct (tunnel.CreateTunnel os m serviceName serviceConfig w) as [[[e|]|] w1];
    [by apply IH | by apply IH | done].
Qed.

Lemma CreateTunnels_loop_registers (services : list string) :
  forall (w : World),
    fst (tunnel.CreateTunnels_loop os m services None w) = Some None ->
    forall s, s ∈ services ->
      is_Some (config.Services (tunnel.config m) !! s)
      /\ is_Some (load s (tunnels (snd (tunnel.CreateTunnels_loop os m services None w)))).
Proof.
  induction services as [|serviceName rest IH]; intros w Hnil s Hs;
    [by apply elem_of_nil in Hs|].
  revert Hnil. cbn [tunnel.CreateTunnels_loop]. unfold config.GetServiceConfig.
  destruct (config.Services (tunnel.config m) !! serviceName)
    as [serviceConfig|] eqn:Hcfg;
    [|by intros ?%CreateTunnels_loop_sticky].
  unfold bind.
  destruct (CreateTunnel_outcome os m serviceName serviceConfig w)
    as (cs & _ & _ & [[Hfail _]|(_ & jh & host & remotePort & localPort & pid
                                  & Ht & _)]);
    destruct (tunnel.CreateTunnel os m serviceName serviceConfig w) as [[[e|]|] w1];
    simpl in *; try done; try by intros ?%CreateTunnels_loop_sticky.
  intros Hnil. apply elem_of_cons in Hs as [->|Hs]; [|by apply IH].
  split; [by rewrite Hcfg|].
  apply (CreateTunnels_loop_registry_inv os m
           (fun l => is_Some (load serviceName l))).
  - intros k v l. apply load_store_is_Some.
  - rewrite Ht, load_store, String.eqb_refl. by eexists.
Qed.

(** What a batch without error has done. *)
Lemma CreateTunnels_nil_inversion (services : list string) (w : World) :
  fst (tunnel.CreateTunnels os m services w) = Some None ->
  is_Some (jumphost (snd (tunnel.CreateTunnels os m services w)))
  /\ forall s, s ∈ services ->
       is_Some (config.Services (tunnel.config m) !! s)
       /\ is_Some (load s (tunnels (snd (tunnel.CreateTunnels os m services w)))).
Proof.
  unfold tunnel.CreateTunnels, orFail, bind.
  destruct (tunnel.GetJumphost os m w) as [[[instance|e]|] w1]; [|done..].
  unfold set_jumphost.
  match goal with |- context [tunnel.CreateTunnels_loop os m services None ?w2] =>
    pose proof (CreateTunnels_loop_registers services w2) as Hreg;
    destruct (CreateTunnels_loop_frame os m services None w2 instance eq_refl)
      as (cs & _ & _ & Hj & _);
    destruct (tunnel.CreateTunnels_loop os m services None w2) as [[[e|]|] w3]
  end; [done| |done].
  simpl in *. intros _. split; [by rewrite Hj | by apply Hreg].
Qed.

(** X12. A batch that returns no error has stored a session for every
    service it was asked for (each of them configured), and has cached
    a jumphost. *)
Theorem CreateTunnels_nil_means_all_registered (services : list string) (w : World) :
  fst (tunnel.CreateTunnels os m services w) = Some None ->
  is_Some (jumphost (snd (tunnel.CreateTunnels os m services w)))
  /\ forall s, s ∈ services ->
       is_Some (config.Services (tunnel.config m) !! s)
       /\ is_Some (load s (tunnels (snd (tunnel.CreateTunnels os m services w)))).
Proof. apply CreateTunnels_nil_inversion. Qed.

(** X13. A batch that names a service missing from the configuration
    does not return without an error, wherever in the list the name
    stands and whatever happens to the other services. *)
Theorem CreateTunnels_unknown_service_fails (services : list string) (s : string)
    (w : World) :
  s ∈ services ->
  config.Services (tunnel.config m) !! s = None ->
  fst (tunnel.CreateTunnels os m services w) <> Some None.
Proof.
  intros Hs Hnone Hnil.
  destruct (CreateTunnels_nil_inversion services w Hnil) as [_ Hall].
  destruct (Hall s Hs) as [[cfg Hcfg] _]. congruence.
Qed.

(** X14. Only the last failure of a batch is reported: when the last
    service asked for is missing from the configuration, a batch that
    returns either failed to find a jumphost or returns the
    unknown-service error of that last name, whatever went wrong with
    the services before it. *)
Theorem CreateTunnels_reports_last_failure (services : list string) (s : string)
    (w w' : World) (r : option error) :
  config.Services (tunnel.config m) !! s = None ->
  tunnel.CreateTunnels os m (services ++ [s]) w = (Some r, w') ->
  (exists e, r = Some (wrapError "failed to find jumphost instance: " e))
  \/ r = Some (wrapError "one or more tunnels failed to create: "
                 (errorString ("unknown service: " +:+ s))).
Proof.
  intros Hnone. unfold tunnel.CreateTunnels, orFail, bind.
  destruct (tunnel.GetJumphost os m w) as [[[instance|e]|] w1];
    [|intros [= <- _]; left; by exists e|done].
  unfold set_jumphost. rewrite CreateTunnels_loop_app.
  destruct (tunnel.CreateTunnels_loop os m services None _) as [[lastError|] w2];
    [|done].
  cbn [tunnel.CreateTunnels_loop]. unfold config.GetServiceConfig. rewrite Hnone.
  unfold ret. intros [= <- _]. by right.
Qed.

End BatchReport.

Lemma CreateTunnels_nil_means_all_registered_witness :
  is_Some (jumphost (snd (tunnel.CreateTunnels fixture.host
                            (fixture.manager fixture.store) ["database"]
                            fixture.initial)))
  /\ forall s, s ∈ ["database"] ->
       is_Some (config.Services fixture.cfg !! s)
       /\ is_Some (load s (tunnels (snd (tunnel.CreateTunnels fixture.host
                                          (fixture.manager fixture.store)
                                          ["database"] fixture.initial)))).
Proof.
  apply (CreateTunnels_nil_means_all_registered fixture.host
           (fixture.manager fixture.store) ["database"] fixture.initial).
  vm_compute. reflexivity.
Defined.

Lemma CreateTunnels_unknown_service_fails_witness :
  fst (tunnel.CreateTunnels fixture.host (fixture.manager fixture.store)
         ["database"; "search"] fixture.initial) <> Some None.
Proof.
  apply (CreateTunnels_unknown_service_fails fixture.host
           (fixture.manager fixture.store) ["database"; "search"] "search"
           fixture.initial).
  - apply elem_of_cons. right. apply elem_of_cons. by left.
  - vm_compute. reflexivity.
Defined.

Lemma CreateTunnels_reports_last_failure_witness :
  exists w',
    tunnel.CreateTunnels fixture.host (fixture.manager fixture.store)
      (["cache"] ++ ["search"]) fixture.initial
    = (Some (Some (wrapError "one or more tunnels failed to create: "
                     (errorString ("unknown service: " +:+ "search")))), w')
    /\ ((exists e,
            Some (wrapError "one or more tunnels failed to create: "
                    (errorString ("unknown service: " +:+ "search")))
            = Some (wrapError "failed to find jumphost instance: " e))
        \/ Some (wrapError "one or more tunnels failed to create: "
                   (errorString ("unknown service: " +:+ "search")))
           = Some (wrapError "one or more tunnels failed to create: "
                     (errorString ("unknown service: " +:+ "search")))).
Proof.
  eexists. split.
  - vm_compute. reflexivity.
  - eapply (CreateTunnels_reports_last_failure fixture.host
              (fixture.manager fixture.store) ["cache"] "search" fixture.initial).
    + vm_compute. reflexivity.
    + vm_compute. reflexivity.
Defined.

(** ** Cleanup, further *)

Section CleanupFurther.

Context (os : OS) (m : tunnel.Manager).

Lemma kill_tunnel_run (k : string) (cmd : exec.Cmd) (lastErr : option error)
    (w : World) :
  tunnel.kill_tunnel os k cmd lastErr w
  = (Some match Process_Kill os (exec.Process cmd) with
          | Some e => (false, Some (wrapError "failed to kill tunnel process: " e))
          | None => (true, lastErr)
          end,
     log [ProcessKill (exec.Process cmd)] w).
Proof.
  unfold tunnel.kill_tunnel, bind, call.
  by destruct (Process_Kill os (exec.Process cmd)).
Qed.

Lemma Range_kill_frame (entries : list (string * exec.Cmd)) :
  forall (w : World),
    (exists n,
        snd (Range (tunnel.kill_tunnel os) entries None w)
        = log (map kill_of (take n entries)) w)
    /\ (fst (Range (tunnel.kill_tunnel os) entries None w) = Some None
        <-> Forall (fun entry => Process_Kill os (exec.Process entry.2) = None) entries).
Proof.
  induction entries as [|[k cmd] entries IH]; intros w; cbn [Range].
  - split; [exists 0; by rewrite log_nil | split; [constructor | done]].
  - unfold bind. rewrite kill_tunnel_run.
    destruct (Process_Kill os (exec.Process cmd)) as [e|] eqn:Hkill; cbn [fst snd].
    + split; [by exists 1|]. split; [done|].
      intros [Hk _]%Forall_cons. simpl in Hk. congruence.
    + destruct (IH (log [ProcessKill (exec.Process cmd)] w)) as [[n Hn] Hiff].
      split.
      * exists (S n). rewrite Hn, log_log. done.
      * rewrite Hiff, Forall_cons. simpl. naive_solver.
Qed.

(** X15. Cleanup never changes the registry or the cached jumphost:
    the sessions stay registered, killed or not.  Its only outside
    calls are kill requests for the processes of the first so many
    registry entries, in registry order, and it returns no error
    exactly when every registered process could be killed. *)
Theorem CleanupTunnels_keeps_registry (w : World) :
  tunnels (snd (tunnel.CleanupTunnels os m w)) = tunnels w
  /\ jumphost (snd (tunnel.CleanupTunnels os m w)) = jumphost w
  /\ (exists n,
         calls (snd (tunnel.CleanupTunnels os m w))
         = calls w ++ map kill_of (take n (tunnels w)))
  /\ (fst (tunnel.CleanupTunnels os m w) = Some None
      <-> Forall (fun entry => Process_Kill os (exec.Process entry.2) = None)
                 (tunnels w)).
Proof.
  unfold tunnel.CleanupTunnels, bind, get_tunnels.
  destruct (Range_kill_frame (tunnels w) w) as [[n Hn] Hiff].
  rewrite Hn. split_and!; [done|done|by exists n|done].
Qed.

(** X16. When every registered process can be killed, cleanup asks
    once for each of them, in registry order, and returns no error. *)
Theorem CleanupTunnels_kills_every_session (w : World) :
  Forall (fun entry => Process_Kill os (exec.Process entry.2) = None) (tunnels w) ->
  tunnel.CleanupTunnels os m w
  = (Some None, log (map kill_of (tunnels w)) w)
  /\ killed (calls (snd (tunnel.CleanupTunnels os m w)))
     = killed (calls w) ++ map (fun entry => exec.Process entry.2) (tunnels w).
Proof.
  intros Hall.
  assert (Hrun : tunnel.CleanupTunnels os m w
                 = (Some None, log (map kill_of (tunnels w)) w)).
  { unfold tunnel.CleanupTunnels, bind, get_tunnels. by apply Range_kill_all. }
  split; [done|]. rewrite Hrun. simpl. unfold killed. rewrite omap_app. f_equal.
  clear. induction (tunnels w) as [|[k cmd] l IH]; [done|].
  cbn [map omap list_omap kill_of snd]. f_equal. exact IH.
Qed.

End CleanupFurther.

Lemma CleanupTunnels_kills_every_session_witness :
  tunnel.CleanupTunnels fixture.host (fixture.manager fixture.store)
    fixture.two_sessions
  = (Some None, log [ProcessKill 1%Z; ProcessKill 3%Z] fixture.two_sessions)
  /\ killed (calls (snd (tunnel.CleanupTunnels fixture.host
                           (fixture.manager fixture.store) fixture.two_sessions)))
     = killed (calls fixture.two_sessions)
       ++ map (fun entry => exec.Process entry.2) (tunnels fixture.two_sessions).
Proof.
  apply (CleanupTunnels_kills_every_session fixture.host
           (fixture.manager fixture.store) fixture.two_sessions).
  apply Forall_cons. split; [reflexivity|].
  apply Forall_cons. split; [reflexivity|]. apply Forall_nil_2.
Defined.

(** ** The display name of an instance *)

(** X17. Both packages name an instance after the first of its tags
    whose key is [Name], whatever tags follow; without such a tag the
    tunnel package says [unnamed] and the client package gives the
    empty string. *)
Theorem getInstanceName_first_Name_tag (instance : types.Instance) :
  (forall before value after,
      types.Tags instance = before ++ ("Name", value) :: after ->
      Forall (fun tag => tag.1 <> "Name") before ->
      tunnel.getInstanceName instance = value
      /\ aws.getInstanceName instance = value)
  /\
  (Forall (fun tag => tag.1 <> "Name") (types.Tags instance) ->
   tunnel.getInstanceName instance = "unnamed"
   /\ aws.getInstanceName instance = "").
Proof.
  unfold tunnel.getInstanceName, aws.getInstanceName. split.
  - intros before value after -> Hbefore.
    induction Hbefore as [|[key val] before Hkey _ IH]; simpl; [done|].
    simpl in Hkey. by destruct (String.eqb_spec key "Name").
  - intros Hnone.
    induction Hnone as [|[key val] tags Hkey _ IH]; simpl; [done|].
    simpl in Hkey. by destruct (String.eqb_spec key "Name").
Qed.

Lemma getInstanceName_first_Name_tag_witness :
  tunnel.getInstanceName fixture.bastion = "prod-ecs-autoscaled"
  /\ aws.getInstanceName fixture.bastion = "prod-ecs-autoscaled".
Proof.
  apply (proj1 (getInstanceName_first_Name_tag fixture.bastion)
           [] "prod-ecs-autoscaled" []).
  - reflexivity.
  - apply Forall_nil_2.
Defined.

(** ** The search for the configuration file *)

Section ConfigFile.

Context (fs : main.Files).

(** The standard locations with the home directory filled in. *)
Let candidates : list string :=
  [ "config.yaml"; "tunnel-go.yaml";
    main.os_Getenv fs "HOME" +:+ "/.tunnel-go/config.yaml";
    main.os_Getenv fs "HOME" +:+ "/.config/tunnel-go.yaml" ].

Lemma locations_expanded :
  map (fun loc => strings.Replace loc "~" (main.os_Getenv fs "HOME") 1) main.locations
  = candidates.
Proof. reflexivity. Qed.

Lemma findConfigFile_loop_first (locs : list string) :
  forall before p after,
    map (fun loc => strings.Replace loc "~" (main.os_Getenv fs "HOME") 1) locs
    = before ++ p :: after ->
    Forall (fun q => main.os_Stat fs q <> None) before ->
    main.os_Stat fs p = None ->
    main.findConfigFile_loop fs locs = Some p.
Proof.
  induction locs as [|loc locs IH]; intros before p after Hsplit Hbefore Hp.
  - by destruct before.
  - simpl in Hsplit. cbn [main.findConfigFile_loop].
    destruct before as [|q before]; simpl in Hsplit; injection Hsplit as Hq Hrest.
    + by rewrite Hq, Hp.
    + apply Forall_cons in Hbefore as [Hmiss Hbefore]. rewrite Hq.
      destruct (main.os_Stat fs q); [|done]. by eapply IH.
Qed.

Lemma findConfigFile_loop_found (locs : list string) (p : string) :
  main.findConfigFile_loop fs locs = Some p ->
  main.os_Stat fs p = None
  /\ p ∈ map (fun loc => strings.Replace loc "~" (main.os_Getenv fs "HOME") 1) locs.
Proof.
  induction locs as [|loc locs IH]; [done|].
  cbn [main.findConfigFile_loop map].
  destruct (main.os_Stat fs (strings.Replace loc "~" _ 1)) eqn:Hstat.
  - intros [? ?]%IH. split; [done | by right].
  - intros [= <-]. split; [done | by left].
Qed.

(** X18. The path [findConfigFile] returns was found by [os.Stat]; a
    path given by the caller is returned as it is or not at all (the
    standard locations are not tried instead), and without one the
    path returned is one of the four standard locations, the tilde
    replaced by the home directory. *)
Theorem findConfigFile_sound (configPath p : string) :
  main.findConfigFile fs configPath = ok p ->
  main.os_Stat fs p = None
  /\ (configPath <> "" -> p = configPath)
  /\ (configPath = "" ->
      p ∈ [ "config.yaml"; "tunnel-go.yaml";
            main.os_Getenv fs "HOME" +:+ "/.tunnel-go/config.yaml";
            main.os_Getenv fs "HOME" +:+ "/.config/tunnel-go.yaml" ]).
Proof.
  unfold main.findConfigFile.
  destruct (String.eqb_spec configPath "") as [->|Hne]; cbn [negb].
  - destruct (main.findConfigFile_loop fs main.locations) as [found|] eqn:Hloop;
      [|done].
    intros [= <-]. apply findConfigFile_loop_found in Hloop as [Hstat Hin].
    rewrite locations_expanded in Hin. by split_and!.
  - destruct (main.os_Stat fs configPath) eqn:Hstat; [done|].
    intros [= <-]. by split_and!.
Qed.

(** X19. Without a path from the caller, the standard locations are
    tried in their order: the first of them that [os.Stat] finds is
    returned, and when none is found the search fails. *)
Theorem findConfigFile_first_found :
  (forall before p after,
      [ "config.yaml"; "tunnel-go.yaml";
        main.os_Getenv fs "HOME" +:+ "/.tunnel-go/config.yaml";
        main.os_Getenv fs "HOME" +:+ "/.config/tunnel-go.yaml" ]
      = before ++ p :: after ->
      Forall (fun q => main.os_Stat fs q <> None) before ->
      main.os_Stat fs p = None ->
      main.findConfigFile fs "" = ok p)
  /\
  (Forall (fun q => main.os_Stat fs q <> None)
          [ "config.yaml"; "tunnel-go.yaml";
            main.os_Getenv fs "HOME" +:+ "/.tunnel-go/config.yaml";
            main.os_Getenv fs "HOME" +:+ "/.config/tunnel-go.yaml" ] ->
   main.findConfigFile fs ""
   = err (errorString "no config file found in standard locations")).
Proof.
  split.
  - intros before p after Hsplit Hbefore Hp. unfold main.findConfigFile.
    cbn [String.eqb negb].
    by rewrite (findConfigFile_loop_first main.locations before p after).
  - intros Hnone. unfold main.findConfigFile. cbn [String.eqb negb].
    destruct (main.findConfigFile_loop fs main.locations) as [found|] eqn:Hloop;
      [|done].
    apply findConfigFile_loop_found in Hloop as [Hstat Hin].
    rewrite locations_expanded in Hin.
    rewrite Forall_forall in Hnone. by apply Hnone in Hin.
Qed.

End ConfigFile.

Lemma findConfigFile_sound_witness :
  main.os_Stat fixture.files "/home/dev/.config/tunnel-go.yaml" = None
  /\ ("" <> "" -> "/home/dev/.config/tunnel-go.yaml" = "")
  /\ ("" = "" ->
      "/home/dev/.config/tunnel-go.yaml"
      ∈ [ "config.yaml"; "tunnel-go.yaml";
          main.os_Getenv fixture.files "HOME" +:+ "/.tunnel-go/config.yaml";
          main.os_Getenv fixture.files "HOME" +:+ "/.config/tunnel-go.yaml" ]).
Proof.
  apply (findConfigFile_sound fixture.files "" "/home/dev/.config/tunnel-go.yaml").
  reflexivity.
Defined.

Lemma findConfigFile_first_found_witness :
  main.findConfigFile fixture.files "" = ok "/home/dev/.config/tunnel-go.yaml".
Proof.
  apply (proj1 (findConfigFile_first_found fixture.files)
           [ "config.yaml"; "tunnel-go.yaml"; "/home/dev/.tunnel-go/config.yaml" ]
           "/home/dev/.config/tunnel-go.yaml" []).
  - reflexivity.
  - repeat (apply Forall_cons; split; [discriminate|]). apply Forall_nil_2.
  - reflexivity.
Defined.

Lemma GetServiceDetails_without_paths_witness :
  exists details,
    tunnel.GetServiceDetails (fixture.manager fixture.store) "metrics"
      fixture.metrics fixture.initial
    = (Some (ok details), fixture.initial)
    /\ dom details = ({["host"; "remote_port"; "local_port_range"]} : gset string)
    /\ details !! "host" = Some "10.0.0.5"
    /\ details !! "remote_port" = Some "9090"
    /\ details !! "local_port_range"
       = Some (fmt_d (config.Start (config.LocalPortRange fixture.metrics))
               +:+ "-" +:+
               fmt_d (config.End_ (config.LocalPortRange fixture.metrics))).
Proof.
  apply (GetServiceDetails_without_paths (fixture.manager fixture.store) "metrics"
           fixture.metrics "10.0.0.5" "9090"
           fixture.initial fixture.initial fixture.initial);
    reflexivity.
Defined.

Lemma GetServiceDetails_keys_witness :
  exists details,
    tunnel.GetServiceDetails (fixture.manager fixture.store) "database"
      fixture.database fixture.initial
    = (Some (ok details),
       log [SSMGetParameter "/prod/db/host" true;
            SSMGetParameters ["/prod/db/user"; "/prod/replica/host"]]
         fixture.initial)
    /\ (forall key,
           is_Some (details !! key)
           <-> key = "host" \/ key = "remote_port" \/ key = "local_port_range"
               \/ exists p name value,
                   p ∈ fixture.found ["/prod/db/user"; "/prod/replica/host"]
                   /\ ssmtypes.Name p = Some name
                   /\ ssmtypes.Value p = Some value
                   /\ is_last_segment key name)
    /\ details !! "local_port_range"
       = Some (fmt_d (config.Start (config.LocalPortRange fixture.database))
               +:+ "-" +:+
               fmt_d (config.End_ (config.LocalPortRange fixture.database))).
Proof.
  apply (GetServiceDetails_keys (fixture.manager fixture.store) "database"
           fixture.database "db.internal" "5432"
           (fixture.found ["/prod/db/user"; "/prod/replica/host"])
           fixture.initial
           (log [SSMGetParameter "/prod/db/host" true] fixture.initial)
           (log [SSMGetParameter "/prod/db/host" true] fixture.initial)
           (log [SSMGetParameter "/prod/db/host" true;
                 SSMGetParameters ["/prod/db/user"; "/prod/replica/host"]]
              fixture.initial)).
  - reflexivity.
  - reflexivity.
  - discriminate.
  - reflexivity.
Defined.
